(** * Cross-validation report harness: a shallow embedding

    Source files embedded here:
    - [src/helper_functions.py]: [summarize_cv_scores],
      [get_hyperparameter_grid], [get_feature_lists] and the self test [main];
    - [src/classifier_evaluation.py]: [main].

    Conventions.
    - A Python [dict] is an association list in insertion order whose keys
      are pairwise distinct (Python 3.7 and later iterate in that order).
    - Numbers.  The arrays of a score dict hold float64 values in the
      source.  Two models of [summarize_cv_scores] follow.  In the first a
      fold value is a finite exact rational ([Q]) and [Pandas.mean_of] is
      the exact quotient in lowest terms, which the float64 result of
      line 69 approximates up to rounding; NaN and infinite folds have no
      counterpart there.  It carries the properties of labels, order,
      selection and shape, and at its concrete inputs the score folds are
      0, 1/2 and the like, whose sums and means float64 represents
      exactly (the timing folds of the toy dict are decimal literals, read
      as the rationals they denote; the self test does not compare them).
      The second, [Float64], is over binary64 values and carries what is
      said of the value of a mean cell.
    - A pandas [DataFrame] is its ordered list of labelled columns; labels
      may repeat, as pandas allows.
    - Raising is a value of [result]; the model over a store of objects
      returns the store next to it. *)

From stdpp Require Import gmap.
From Stdlib Require Import String Ascii List ZArith QArith Qreduction Lia Bool.
From Stdlib Require Import Floats.
Import ListNotations.

Local Close Scope Q_scope.
Local Close Scope Z_scope.
Local Open Scope string_scope.
Local Open Scope list_scope.

(** Decimal float literals stand for the nearest float64 value, as in
    Python. *)
Local Set Warnings "-inexact-float".

(** ** Exceptions and results *)

Inductive exn : Type :=
| ValueError
| TypeError
| KeyError
| AttributeError
| AssertionError
| InvalidIndexError
| ZeroDivisionError
| OSError.

Inductive result (A : Type) : Type :=
| Ok (a : A)
| Raise (e : exn).

Arguments Ok {A} a.
Arguments Raise {A} e.

Definition rbind {A B : Type} (r : result A) (k : A -> result B) : result B :=
  match r with
  | Ok a => k a
  | Raise e => Raise e
  end.

Declare Scope result_scope.
Delimit Scope result_scope with result.
Notation "'do' x <- r ; k" := (rbind r (fun x => k))
  (at level 10, x name, r at level 100, k at level 200) : result_scope.

(** ** Strings *)

Module Str.

(** [old] empty: Python puts [new] before every character and at the end. *)
Fixpoint around (new s : string) : string :=
  match s with
  | EmptyString => new
  | String c rest => new ++ String c (around new rest)
  end.

(** Left-to-right scan for a non-empty [old]; [skip] counts the characters
    of a match that are still to be dropped. *)
Fixpoint scan (old new : string) (skip : nat) (s : string) : string :=
  match s with
  | EmptyString => EmptyString
  | String c rest =>
      match skip with
      | S k => scan old new k rest
      | O =>
          if String.prefix old s
          then new ++ scan old new (String.length old - 1) rest
          else String c (scan old new 0 rest)
      end
  end.

(** [s.replace(old, new)]: every non-overlapping occurrence, leftmost
    first.  [Series.str.replace] with a pattern free of regular-expression
    metacharacters (such as ["test_"]) does the same to every element. *)
Definition replace (old new s : string) : string :=
  match old with
  | EmptyString => around new s
  | String _ _ => scan old new 0 s
  end.

Definition startswith (p s : string) : bool := String.prefix p s.

(** Does [p] occur somewhere in [s]? *)
Fixpoint contains (p s : string) : bool :=
  String.prefix p s ||
  match s with
  | EmptyString => false
  | String _ rest => contains p rest
  end.

End Str.

(** ** Cells, series and frames *)

Inductive cell : Type :=
| Num (q : Q)
| NaN
| Str (s : string).

(** A [dict] from metric key to the per-fold values. *)
Definition cv_dict : Type := list (string * list Q).

(** A numeric frame (one column per key), a labelled series, and a frame
    whose cells may be numbers or strings. *)
Definition num_frame : Type := list (string * list Q).
Definition series : Type := list (string * cell).
Definition frame : Type := list (string * list cell).

Definition keys {V : Type} (d : list (string * V)) : list string := map fst d.

Definition columns (f : frame) : list string := map fst f.

Definition n_rows (f : frame) : nat :=
  match f with
  | [] => 0
  | (_, c) :: _ => List.length c
  end.

Module Pandas.

Local Open Scope result_scope.

Definition same_length (X : cv_dict) : bool :=
  match X with
  | [] => true
  | (_, v) :: rest =>
      forallb (fun kv => Nat.eqb (List.length (snd kv)) (List.length v)) rest
  end.

(** [pd.DataFrame(X)] for a dict of arrays: one column per key, in key
    order; arrays of different lengths are refused. *)
Definition DataFrame (X : cv_dict) : result num_frame :=
  if same_length X then Ok X else Raise ValueError.

Definition total (xs : list Q) : Q := fold_left Qplus xs 0%Q.

(** The cell of [X_df.mean()] (line 69) for one column, over finite exact
    values: the exact quotient of the sum by the count, in lowest terms; the
    mean of no value at all is NaN.  The float64 mean of the source agrees
    with it up to rounding only, and has a skip rule for NaN entries that no
    list of [Q] values exercises: see [Float64.nanmean]. *)
Definition mean_of (xs : list Q) : cell :=
  match xs with
  | [] => NaN
  | _ :: _ => Num (Qred (total xs / inject_Z (Z.of_nat (List.length xs))))
  end.

(** [X_df.mean()]: a series indexed by the column labels. *)
Definition mean (f : num_frame) : series :=
  map (fun kv => (fst kv, mean_of (snd kv))) f.

(** [pd.DataFrame(s).T]: one row, one column per label of the series. *)
Definition to_row (s : series) : frame :=
  map (fun kc => (fst kc, [snd kc])) s.

(** [pd.Series(labels).str.replace(old, new).tolist()].  A Series built
    from an empty list has dtype float64 in the pandas 1.x line this code
    was written for, and its [.str] accessor raises. *)
Definition str_replace (labels : list string) (old new : string)
  : result (list string) :=
  match labels with
  | [] => Raise AttributeError
  | _ :: _ => Ok (map (Str.replace old new) labels)
  end.

(** [f.columns = labels]: the labels are assigned by position. *)
Definition set_columns (f : frame) (labels : list string) : result frame :=
  if Nat.eqb (List.length labels) (List.length f)
  then Ok (map (fun lc => (fst lc, snd (snd lc))) (combine labels f))
  else Raise ValueError.

Definition has_label (k : string) (f : frame) : bool :=
  existsb (fun c => String.eqb (fst c) k) f.

(** [f[k] = v] with a scalar [v]: every column labelled [k] is overwritten
    in place; when there is none, a new last column is added.  The scalar
    is repeated over the rows. *)
Definition setitem (f : frame) (k : string) (v : cell) : frame :=
  let col := repeat v (n_rows f) in
  if has_label k f
  then map (fun c => if String.eqb (fst c) k then (fst c, col) else c) f
  else f ++ [(k, col)].

Definition take (k : string) (f : frame) : frame :=
  List.filter (fun c => String.eqb (fst c) k) f.

(** [f[labels]] with a list: for each requested label in turn, every
    column carrying it (all of them when the label is repeated in [f]);
    a label that is absent raises. *)
Fixpoint getitem (f : frame) (labels : list string) : result frame :=
  match labels with
  | [] => Ok []
  | k :: rest =>
      match take k f with
      | [] => Raise KeyError
      | cs => do more <- getitem f rest; Ok (cs ++ more)
      end
  end.

End Pandas.

(** ** [summarize_cv_scores] (helper_functions.py, lines 19-73) *)

Definition summarize_cv_scores (X : cv_dict) (classifier_name : string)
  : result frame :=
  (do X_df <- Pandas.DataFrame X;
   do col_names <- Pandas.str_replace (keys X_df) "test_" "validation_";
   let X_df := Pandas.to_row (Pandas.mean X_df) in
   do X_df <- Pandas.set_columns X_df col_names;
   let X_df := Pandas.setitem X_df "classifier_name" (Str classifier_name) in
   let col_names := "classifier_name" :: col_names in
   Pandas.getitem X_df col_names)%result.

(** The renaming of line 65. *)
Definition rename (k : string) : string :=
  Str.replace "test_" "validation_" k.

(** The frame of line 70: the renamed labels over the column means. *)
Definition mean_row (X : cv_dict) : frame :=
  map (fun kv => (rename (fst kv), [Pandas.mean_of (snd kv)])) X.

Definition has_char (c : ascii) (s : string) : bool :=
  existsb (Ascii.eqb c) (list_ascii_of_string s).

Definition toy_score : cv_dict :=
  let half := [1#2; 1#2; 1#2; 1#2; 1#2]%Q in
  let zero := [0; 0; 0; 0; 0]%Q in
  [ ("fit_time", [2657628 # 100000000; 2356863 # 100000000;
                  2640152 # 100000000; 2609539 # 100000000;
                  2393484 # 100000000]%Q);
    ("score_time", [2375078 # 100000000; 2024961 # 100000000;
                    2282763 # 100000000; 2582216 # 100000000;
                    217247 # 10000000]%Q);
    ("test_accuracy", half);
    ("train_accuracy", half);
    ("test_f1", zero);
    ("train_f1", zero);
    ("test_recall", zero);
    ("train_recall", zero);
    ("test_precision", zero);
    ("train_precision", zero);
    ("test_average_precision", half);
    ("train_average_precision", half);
    ("test_roc_auc", half);
    ("train_roc_auc", half) ].

(** ** [get_hyperparameter_grid] (helper_functions.py, lines 76-119) *)

Module Numpy.

(** [np.arange(start, stop, step)] on integers: [ceil((stop - start) / step)]
    values, none when that is not positive. *)
Definition arange (start stop step : Z) : result (list Z) :=
  if Z.eqb step 0 then Raise ZeroDivisionError
  else
    let n := Z.to_nat (- ((- (stop - start)) / step)) in
    Ok (map (fun i => (start + Z.of_nat i * step)%Z) (seq 0 n)).

End Numpy.

Definition param_grid : Type := list (string * list Z).

Definition model_names : list string :=
  ["decision_tree"; "knn"; "svc"; "logistic_regression"; "random_forest"].

Definition mem_string (s : string) (l : list string) : bool :=
  existsb (String.eqb s) l.

Definition get_hyperparameter_grid (model_name : string)
  : result (option param_grid) :=
  if negb (mem_string model_name model_names) then Raise AssertionError
  else if String.eqb model_name "random_forest" then
    (do n_estimators <- Numpy.arange 500 1001 100;
     do min_samples_split <- Numpy.arange 4 11 1;
     Ok (Some [ ("randomforestclassifier__n_estimators", n_estimators);
                ("randomforestclassifier__min_samples_split",
                 min_samples_split) ]))%result
  else Ok None.

(** ** [get_feature_lists] (helper_functions.py, lines 122-186) *)

Definition feature_lists : Type :=
  (list string * list string * list string *
   list string * list string * list string)%type.

Definition get_feature_lists : feature_lists :=
  let numeric_features_general :=
    [ "lead_time"; "stays_in_weekend_nights"; "stays_in_week_nights";
      "adults"; "previous_cancellations"; "previous_bookings_not_canceled";
      "booking_changes"; "days_in_waiting_list"; "adr";
      "required_car_parking_spaces"; "total_of_special_requests";
      "arrival_date_year"; "arrival_date_week_number";
      "arrival_date_day_of_month" ] in
  let numeric_features_special := [ "children"; "babies" ] in
  let categorical_features_general :=
    [ "hotel"; "arrival_date_month"; "meal"; "market_segment";
      "distribution_channel"; "reserved_room_type"; "deposit_type";
      "customer_type" ] in
  let categorical_features_special := [ "country" ] in
  let drop_features :=
    [ "company"; "reservation_status"; "reservation_status_date"; "agent" ] in
  let binary_features := [ "is_repeated_guest" ] in
  (numeric_features_general, numeric_features_special,
   categorical_features_general, categorical_features_special,
   drop_features, binary_features).

Definition groups (fl : feature_lists) : list (list string) :=
  let '(a, b, c, d, e, f) := fl in [a; b; c; d; e; f].

Definition disjointb (a b : list string) : bool :=
  forallb (fun x => negb (mem_string x b)) a.

Fixpoint nodupb (l : list string) : bool :=
  match l with
  | [] => true
  | x :: rest => negb (mem_string x rest) && nodupb rest
  end.

(** The self test of helper_functions.py compares thirteen columns of the
    toy summary with this frame (lines 216-230). *)
Definition expected : frame :=
  [ ("classifier_name", [Str "toy_test"]);
    ("validation_accuracy", [Num (1#2)]);
    ("train_accuracy", [Num (1#2)]);
    ("validation_f1", [Num 0]);
    ("train_f1", [Num 0]);
    ("validation_recall", [Num 0]);
    ("train_recall", [Num 0]);
    ("validation_precision", [Num 0]);
    ("train_precision", [Num 0]);
    ("validation_average_precision", [Num (1#2)]);
    ("train_average_precision", [Num (1#2)]);
    ("validation_roc_auc", [Num (1#2)]);
    ("train_roc_auc", [Num (1#2)]) ].

(** The summary of [toy_score] under the name toy_test. *)
Definition toy_row : frame :=
  [ ("classifier_name", [Str "toy_test"]);
    ("fit_time", [Num (6328833 # 250000000)]);
    ("score_time", [Num (714843 # 31250000)]);
    ("validation_accuracy", [Num (1#2)]);
    ("train_accuracy", [Num (1#2)]);
    ("validation_f1", [Num 0]);
    ("train_f1", [Num 0]);
    ("validation_recall", [Num 0]);
    ("train_recall", [Num 0]);
    ("validation_precision", [Num 0]);
    ("train_precision", [Num 0]);
    ("validation_average_precision", [Num (1#2)]);
    ("train_average_precision", [Num (1#2)]);
    ("validation_roc_auc", [Num (1#2)]);
    ("train_roc_auc", [Num (1#2)]) ].

(** The claim's own, smaller toy: the four sequences it lists. *)
Definition toy_four : cv_dict :=
  let half := [1#2; 1#2; 1#2; 1#2; 1#2]%Q in
  let zero := [0; 0; 0; 0; 0]%Q in
  [ ("test_accuracy", half); ("train_accuracy", half);
    ("test_f1", zero); ("train_f1", zero) ].

(** ** The same function over a store of objects

    [X] is a reference to a dict object whose values are references to
    arrays; every frame the function builds is an object of its own.  The
    statements that write ([X_df.columns = ...], [X_df[...] = ...]) write
    through the reference bound to [X_df] at that point. *)

Module Store.

Definition loc : Type := nat.

Inductive obj : Type :=
| OArray (xs : list Q)
| ODict (d : list (string * loc))
| ONumFrame (f : num_frame)
| OFrame (f : frame).

Abbreviation heap := (gmap loc obj).

Definition M (A : Type) : Type := heap -> result A * heap.

Definition ret {A : Type} (a : A) : M A := fun h => (Ok a, h).

Definition bind {A B : Type} (m : M A) (k : A -> M B) : M B :=
  fun h =>
    match m h with
    | (Ok a, h') => k a h'
    | (Raise e, h') => (Raise e, h')
    end.

Definition lift {A : Type} (r : result A) : M A := fun h => (r, h).

Declare Scope store_scope.
Delimit Scope store_scope with store.
Notation "'do' x <- r ; k" := (bind r (fun x => k))
  (at level 10, x name, r at level 100, k at level 200) : store_scope.

Local Open Scope store_scope.

(** A new object at an unused address. *)
Definition alloc (o : obj) : M loc :=
  fun h => let l := fresh (dom h) in (Ok l, <[l := o]> h).

(** A reference that points nowhere or to an object of another kind
    is a [TypeError]. *)
Definition load_array (l : loc) : M (list Q) :=
  fun h => match h !! l with
           | Some (OArray xs) => (Ok xs, h)
           | _ => (Raise TypeError, h)
           end.

Definition load_num_frame (l : loc) : M num_frame :=
  fun h => match h !! l with
           | Some (ONumFrame f) => (Ok f, h)
           | _ => (Raise TypeError, h)
           end.

Definition load_frame (l : loc) : M frame :=
  fun h => match h !! l with
           | Some (OFrame f) => (Ok f, h)
           | _ => (Raise TypeError, h)
           end.

Definition store_frame (l : loc) (f : frame) : M unit :=
  fun h => (Ok tt, <[l := OFrame f]> h).

Fixpoint load_items (d : list (string * loc)) : M cv_dict :=
  match d with
  | [] => ret []
  | (k, l) :: rest =>
      do xs <- load_array l;
      do more <- load_items rest;
      ret ((k, xs) :: more)
  end.

(** The contents of the dict at [X], key by key. *)
Definition read_dict (X : loc) : M cv_dict :=
  fun h => match h !! X with
           | Some (ODict d) => load_items d h
           | _ => (Raise TypeError, h)
           end.

Definition summarize_cv_scores (X : loc) (classifier_name : string) : M loc :=
  do d <- read_dict X;
  do f <- lift (Pandas.DataFrame d);
  do X_df <- alloc (ONumFrame f);
  do f <- load_num_frame X_df;
  do col_names <- lift (Pandas.str_replace (keys f) "test_" "validation_");
  do X_df <- alloc (OFrame (Pandas.to_row (Pandas.mean f)));
  do f <- load_frame X_df;
  do f <- lift (Pandas.set_columns f col_names);
  do _ <- store_frame X_df f;
  do f <- load_frame X_df;
  do _ <- store_frame X_df
            (Pandas.setitem f "classifier_name" (Str classifier_name));
  let col_names := "classifier_name" :: col_names in
  do f <- load_frame X_df;
  do f <- lift (Pandas.getitem f col_names);
  alloc (OFrame f).

(** [wp m h Q]: running [m] from [h] ends in a result and a store that
    satisfy [Q]. *)
Definition wp {A : Type} (m : M A) (h : heap)
    (Q : result A -> heap -> Prop) : Prop :=
  Q (fst (m h)) (snd (m h)).

(** A store holding a dict at 0 over two arrays at 1 and 2. *)
Definition sample_heap : heap :=
  <[0 := ODict [("test_f1", 1); ("train_f1", 2)]]>
    (<[1 := OArray [1#2; 1#4]%Q]> (<[2 := OArray [1; 1]%Q]> ∅)).

End Store.

(** ** [main] of classifier_evaluation.py *)

(** Values the command line (or a caller) may hand to [main]. *)
Inductive pyval : Type :=
| PNone
| PStr (s : string)
| PBool (b : bool)
| PInt (z : Z)
| PObj.

(** Estimators and preprocessing steps, by constructor and keyword. *)
Inductive classifier : Type :=
| DummyClassifier (strategy : string) (random_state : Z)
| DecisionTreeClassifier (random_state : Z)
| KNeighborsClassifier (n_jobs n_neighbors : Z)
| SVC (random_state : Z)
| LogisticRegression (random_state max_iter n_jobs : Z)
| RandomForestClassifier (n_jobs random_state : Z).

Inductive step : Type :=
| SimpleImputer (strategy : string) (fill_value : option cell)
| StandardScaler
| OneHotEncoder (handle_unknown : string).

Definition column_transformer : Type := list (list step * list string).

Inductive estimator : Type :=
| Bare (c : classifier)
| Piped (pre : column_transformer) (c : classifier).

Inductive event : Type :=
| EPrint (s : string)
| EPrintExn (e : exn)
| EPrintType (e : exn)
| EReadCsv (path : string)
| ECrossValidate (e : estimator) (cv : Z)
| EToCsv (path : string) (f : frame).

Inductive stop : Type :=
| Exit (code : Z)
| Uncaught (e : exn).

Inductive outcome (A : Type) : Type :=
| Done (a : A)
| Stopped (s : stop).

Arguments Done {A} a.
Arguments Stopped {A} s.

(** What the program relies on and does not define: the [int] builtin on
    strings, the file system, and scikit-learn's [cross_validate] (called
    with [n_jobs=-1] and [return_train_score=True]). *)
Record world : Type := {
  int_of_str : string -> option Z;
  read_csv : string -> result frame;
  cross_validate :
    estimator -> frame -> frame -> list string -> Z -> result cv_dict;
  to_csv : string -> frame -> result unit
}.

(** The keys of the dict [cross_validate] returns for a list of scorer
    names when training scores are requested. *)
Definition cv_keys (scoring : list string) : list string :=
  "fit_time" :: "score_time" ::
  flat_map (fun m => [("test_" ++ m)%string; ("train_" ++ m)%string]) scoring.

Module IO.

(** A run is the events it emitted and how it went on. *)
Definition io (A : Type) : Type := (list event * outcome A)%type.

Definition ret {A : Type} (a : A) : io A := ([], Done a).

Definition bind {A B : Type} (m : io A) (k : A -> io B) : io B :=
  match m with
  | (t, Done a) => let (t', o) := k a in (t ++ t', o)
  | (t, Stopped s) => (t, Stopped s)
  end.

Definition emit (e : event) : io unit := ([e], Done tt).

Definition print (s : string) : io unit := emit (EPrint s).

Definition exit {A : Type} (code : Z) : io A := ([], Stopped (Exit code)).

(** An exception no handler catches ends the run. *)
Definition lift {A : Type} (r : result A) : io A :=
  match r with
  | Ok a => ret a
  | Raise e => ([], Stopped (Uncaught e))
  end.

Definition when (b : bool) (m : io unit) : io unit :=
  if b then m else ret tt.

Fixpoint for_each {A S : Type} (l : list A) (body : A -> S -> io S) (s : S)
  : io S :=
  match l with
  | [] => ret s
  | a :: rest => bind (body a s) (for_each rest body)
  end.

Definition trace {A : Type} (m : io A) : list event := fst m.
Definition ending {A : Type} (m : io A) : outcome A := snd m.

End IO.

Declare Scope io_scope.
Delimit Scope io_scope with io.
Notation "'do' x <- r ; k" := (IO.bind r (fun x => k))
  (at level 10, x name, r at level 100, k at level 200) : io_scope.

Module Pandas2.

(** [f.drop(columns=labels)]: every column carrying one of the labels
    goes; a label the frame does not have raises. *)
Definition drop (f : frame) (labels : list string) : result frame :=
  if forallb (fun k => Pandas.has_label k f) labels
  then Ok (List.filter (fun c => negb (mem_string (fst c) labels)) f)
  else Raise KeyError.

(** [f[k]] with one label. *)
Definition column (f : frame) (k : string) : result frame :=
  match Pandas.take k f with
  | [] => Raise KeyError
  | cs => Ok cs
  end.

Definition string_list_eqb (a b : list string) : bool :=
  if list_eq_dec string_dec a b then true else false.

Definition cells_of (k : string) (f : frame) : list cell :=
  match Pandas.take k f with
  | [] => repeat NaN (n_rows f)
  | (_, c) :: _ => c
  end.

(** [pd.concat([a, b], ignore_index=True)].  Equal column indexes: the
    rows of [b] follow those of [a], column by column.  Different indexes
    without repeated labels: the union of the labels in order of first
    appearance, NaN where a frame lacks the column.  Different indexes
    with a repeated label cannot be aligned. *)
Definition concat (a b : frame) : result frame :=
  if string_list_eqb (columns a) (columns b) then
    Ok (map (fun ab => (fst (fst ab), snd (fst ab) ++ snd (snd ab)))
            (combine a b))
  else if nodupb (columns a) && nodupb (columns b) then
    let added :=
      List.filter (fun k => negb (mem_string k (columns a))) (columns b) in
    Ok (map (fun k => (k, cells_of k a ++ cells_of k b))
            (columns a ++ added))
  else Raise InvalidIndexError.

End Pandas2.

Definition verbose_flag (verbose : pyval) : bool :=
  match verbose with
  | PStr s => String.eqb s "True"
  | _ => false
  end.

(** [int(v)] *)
Definition py_int (w : world) (v : pyval) : result Z :=
  match v with
  | PStr s =>
      match int_of_str w s with
      | Some z => Ok z
      | None => Raise ValueError
      end
  | PBool b => Ok (if b then 1 else 0)%Z
  | PInt z => Ok z
  | PNone | PObj => Raise TypeError
  end.

(** The two [try] blocks of lines 54-82: the default for a missing option,
    [int] otherwise; [ValueError] prints the message and exits with the
    block's own code, any other exception exits with -99. *)
Definition int_option (w : world) (v : pyval) (default : Z)
    (message : string) (code : Z) : IO.io Z :=
  match v with
  | PNone => IO.ret default
  | _ =>
      match py_int w v with
      | Ok z => IO.ret z
      | Raise ValueError =>
          (do _ <- IO.print message;
           do _ <- IO.emit (EPrintExn ValueError);
           do _ <- IO.emit (EPrintType ValueError);
           IO.exit code)%io
      | Raise ex =>
          (do _ <- IO.emit (EPrintExn ex);
           do _ <- IO.emit (EPrintType ex);
           IO.exit (-99))%io
      end
  end.

Definition eval_metrics : list string :=
  ["f1"; "precision"; "recall"; "accuracy"].

Definition models (chosen_seed : Z) : list (string * classifier) :=
  [ ("Decision Tree", DecisionTreeClassifier chosen_seed);
    ("k_Nearest_Neighbor", KNeighborsClassifier (-1) 3);
    ("SVC (RBF kernel)", SVC chosen_seed);
    ("Logistic Regression", LogisticRegression chosen_seed 1000 (-1));
    ("Random Forest", RandomForestClassifier (-1) chosen_seed) ].

Fixpoint lookup_model (m : string) (ms : list (string * classifier))
  : result classifier :=
  match ms with
  | [] => Raise KeyError
  | (k, c) :: rest => if String.eqb k m then Ok c else lookup_model m rest
  end.

Definition preprocessor : column_transformer :=
  let '(numeric_features_general, numeric_features_special,
        categorical_features_general, categorical_features_special,
        drop_features, binary_features) := get_feature_lists in
  let numeric_pipeline_general :=
    [SimpleImputer "median" None; StandardScaler] in
  let numeric_pipeline_special :=
    [SimpleImputer "constant" (Some (Num 0)); StandardScaler] in
  let categorical_pipeline_general :=
    [SimpleImputer "most_frequent" None; OneHotEncoder "ignore"] in
  let categorical_pipeline_special :=
    [SimpleImputer "constant" (Some (Str "missing")); OneHotEncoder "ignore"] in
  let binary_pipeline := [SimpleImputer "most_frequent" None] in
  [ (numeric_pipeline_general, numeric_features_general);
    (numeric_pipeline_special, numeric_features_special);
    (categorical_pipeline_general, categorical_features_general);
    (categorical_pipeline_special, categorical_features_special);
    (binary_pipeline, binary_features) ].

Definition run_cross_validate (w : world) (e : estimator)
    (X_train y_train : frame) (n_cv_folds : Z) : IO.io cv_dict :=
  (do _ <- IO.emit (ECrossValidate e n_cv_folds);
   IO.lift (cross_validate w e X_train y_train eval_metrics n_cv_folds))%io.

(** The body of the loop of lines 152-168, for the model named [m]. *)
Definition main_loop_body (w : world) (verbose : bool)
    (models : list (string * classifier)) (preprocessor : column_transformer)
    (X_train y_train : frame) (n_cv_folds : Z)
    (m : string) (mean_scores_df : frame) : IO.io frame :=
  (do _ <- IO.when verbose (IO.print ("Evaluating " ++ m)%string);
   do c <- IO.lift (lookup_model m models);
   let model_pipe := Piped preprocessor c in
   do scores <- run_cross_validate w model_pipe X_train y_train n_cv_folds;
   do row <- IO.lift (summarize_cv_scores scores m);
   IO.lift (Pandas2.concat mean_scores_df row))%io.

Definition main (w : world) (train_data_file report_file : string)
    (n_cv_folds chosen_seed verbose : pyval) : IO.io unit :=
  (let verbose := verbose_flag verbose in
   do chosen_seed <-
     int_option w chosen_seed 1 "Value of chosen_seed should be int" (-2);
   do n_cv_folds <-
     int_option w n_cv_folds 5 "Value of n_cv_folds should be int" (-3);
   do _ <- IO.emit (EReadCsv train_data_file);
   do train_df <- IO.lift (read_csv w train_data_file);
   do _ <- IO.when verbose (IO.print "Training Data Imported...");
   do X_train <- IO.lift (Pandas2.drop train_df ["is_canceled"]);
   do y_train <- IO.lift (Pandas2.column train_df "is_canceled");
   let preprocessor := preprocessor in
   do _ <- IO.when verbose (IO.print "Preprocessor Created...");
   let model_dummy := DummyClassifier "stratified" chosen_seed in
   do scores <- run_cross_validate w (Bare model_dummy) X_train y_train
                  n_cv_folds;
   do mean_scores_df <-
     IO.lift (summarize_cv_scores scores "Dummy Classifier");
   let models := models chosen_seed in
   do mean_scores_df <-
     IO.for_each (keys models)
       (main_loop_body w verbose models preprocessor X_train y_train
                       n_cv_folds)
       mean_scores_df;
   do _ <- IO.when verbose (IO.print "Evaluation Complete...");
   do _ <- IO.emit (EToCsv report_file mean_scores_df);
   do _ <- IO.lift (to_csv w report_file mean_scores_df);
   IO.print "Report generated and saved...")%io.

(** The events that are not progress messages. *)
Definition is_print (e : event) : bool :=
  match e with
  | EPrint _ | EPrintExn _ | EPrintType _ => true
  | _ => false
  end.

Definition effects (t : list event) : list event :=
  List.filter (fun e => negb (is_print e)) t.

Definition reports (t : list event) : list (string * frame) :=
  flat_map (fun e => match e with EToCsv p f => [(p, f)] | _ => [] end) t.

(** The integer an option stands for when it is absent or [int] accepts
    it. *)
Definition int_value (w : world) (v : pyval) (default : Z) : option Z :=
  match v with
  | PNone => Some default
  | _ => match py_int w v with
         | Ok z => Some z
         | Raise _ => None
         end
  end.

(** Two runs that end alike and differ at most in what they print. *)
Definition quiet_eq {A : Type} (m1 m2 : IO.io A) : Prop :=
  IO.ending m1 = IO.ending m2 /\
  effects (IO.trace m1) = effects (IO.trace m2).

(** What scikit-learn promises of [cross_validate]: one sequence per key
    of [cv_keys], all of one length. *)
Definition cross_validate_contract (w : world) : Prop :=
  forall e X y scoring cv,
    exists d, cross_validate w e X y scoring cv = Ok d /\
              keys d = cv_keys scoring /\
              Pandas.same_length d = true.

(** The report after the models [names]: the name column holds them in
    order, and every metric column has one cell per model. *)
Definition report_of (names : list string) (f : frame) : Prop :=
  exists rest,
    f = ("classifier_name", map Str names) :: rest /\
    columns rest = map rename (cv_keys eval_metrics) /\
    Forall (fun c => List.length (snd c) = List.length names) rest.

(** A decimal reader for plain digit strings, to run [main] on examples. *)
Definition digit_of (c : ascii) : option Z :=
  let n := nat_of_ascii c in
  if Nat.leb 48 n && Nat.leb n 57 then Some (Z.of_nat (n - 48)) else None.

Fixpoint digits_from (acc : Z) (s : string) : option Z :=
  match s with
  | EmptyString => Some acc
  | String c rest =>
      match digit_of c with
      | Some d => digits_from (acc * 10 + d) rest
      | None => None
      end
  end.

Definition decimal (s : string) : option Z :=
  match s with
  | EmptyString => None
  | _ => digits_from 0 s
  end.

(** A world for examples: one small data file, constant scores. *)
Definition sample_scores (scoring : list string) : cv_dict :=
  map (fun k => (k, [1#2; 1#4]%Q)) (cv_keys scoring).

Definition sample_world : world :=
  {| int_of_str := decimal;
     read_csv := fun _ => Ok [ ("is_canceled", [Num 0; Num 1; Num 0; Num 1]);
                               ("lead_time", [Num 3; Num 4; Num 5; Num 6]) ];
     cross_validate := fun _ _ _ scoring _ => Ok (sample_scores scoring);
     to_csv := fun _ _ => Ok tt |}.

(** Two keys that the renaming sends to one label. *)
Definition clash_scores : cv_dict :=
  [ ("test_a", [1; 1]%Q); ("validation_a", [3; 3]%Q) ].

(** What [cross_validate] returns for a scorer registered under the name
    latest_f1. *)
Definition latest_scores : cv_dict :=
  [ ("fit_time", [1#4; 3#4]%Q); ("score_time", [1#8; 3#8]%Q);
    ("test_latest_f1", [1#2; 1#2]%Q); ("train_latest_f1", [1; 1]%Q) ].

(** ** The self test of helper_functions.py (lines 189-265) *)

Module HelperFunctions.

(** [a == b] on two cells: numbers by value, strings by content; NaN
    equals nothing. *)
Definition cell_eqb (a b : cell) : bool :=
  match a, b with
  | Num p, Num q => Qeq_bool p q
  | Str s, Str t => String.eqb s t
  | _, _ => false
  end.

(** [a == b] on two frames: cell by cell, for frames with the same labels
    and as many rows; other frames cannot be compared. *)
Definition frame_eq (a b : frame) : result (list (string * list bool)) :=
  if Pandas2.string_list_eqb (columns a) (columns b)
     && Nat.eqb (n_rows a) (n_rows b)
  then Ok (map (fun ab : (string * list cell) * (string * list cell) =>
                  (fst (fst ab),
                   map (fun xy => cell_eqb (fst xy) (snd xy))
                       (combine (snd (fst ab)) (snd (snd ab)))))
               (combine a b))
  else Raise ValueError.

(** [b.T.sum()]: for each row, the number of columns that hold True. *)
Definition row_sums (b : list (string * list bool)) : list nat :=
  let n := match b with
           | [] => 0
           | (_, c) :: _ => List.length c
           end in
  fold_right
    (fun col acc =>
       map (fun xy => Nat.b2n (fst xy) + snd xy) (combine (snd col) acc))
    (repeat 0 n) b.

(** [int(s)] on a Series: its element when it has exactly one. *)
Definition int_of_series (s : list nat) : result nat :=
  match s with
  | [x] => Ok x
  | _ => Raise TypeError
  end.

Definition assert (b : bool) : IO.io unit :=
  if b then IO.ret tt else IO.lift (Raise AssertionError).

Definition compared_columns : list string :=
  [ "classifier_name"; "validation_accuracy"; "train_accuracy";
    "validation_f1"; "train_f1"; "validation_recall"; "train_recall";
    "validation_precision"; "train_precision";
    "validation_average_precision"; "train_average_precision";
    "validation_roc_auc"; "train_roc_auc" ].

(** The check of lines 235-260 on a summary [f]: the number of compared
    cells that equal the expected ones. *)
Definition matching_cells (f : frame) : result nat :=
  (do sel <- Pandas.getitem f compared_columns;
   do eq <- frame_eq sel expected;
   int_of_series (row_sums eq))%result.

Definition main : IO.io unit :=
  (do _ <- IO.lift (summarize_cv_scores toy_score "toy_test");
   do f <- IO.lift (summarize_cv_scores toy_score "toy_test");
   do n <- IO.lift (matching_cells f);
   do _ <- assert (Nat.eqb n 13);
   do _ <- IO.print "Successfully tested summarize_cv_scores function!";
   do g <- IO.lift (get_hyperparameter_grid "random_forest");
   do _ <- assert (match g with Some _ => true | None => false end);
   do g <- IO.lift (get_hyperparameter_grid "decision_tree");
   do _ <- assert (match g with Some _ => false | None => true end);
   IO.print "Successfully tested get_hyperparameter_grid function!")%io.

End HelperFunctions.

(** ** Reading a run of [main] *)

Definition evaluations (t : list event) : list (estimator * Z) :=
  flat_map (fun e => match e with
                     | ECrossValidate est cv => [(est, cv)]
                     | _ => []
                     end) t.

Definition messages (t : list event) : list string :=
  flat_map (fun e => match e with
                     | EPrint s => [s]
                     | _ => []
                     end) t.

(** The estimators [main] hands to [cross_validate], in the order of the
    code: the baseline alone, then each model behind the preprocessor. *)
Definition estimators (seed : Z) : list estimator :=
  Bare (DummyClassifier "stratified" seed)
  :: map (fun mc => Piped preprocessor (snd mc)) (models seed).

Definition planned (seed folds : Z) : list (estimator * Z) :=
  map (fun e => (e, folds)) (estimators seed).

(** The events of one turn of the loop for the model named [m]. *)
Definition turn_events (verbose : bool) (ms : list (string * classifier))
    (pre : column_transformer) (folds : Z) (m : string) : list event :=
  (if verbose then [EPrint ("Evaluating " ++ m)%string] else [])
  ++ match lookup_model m ms with
     | Ok c => [ECrossValidate (Piped pre c) folds]
     | Raise _ => []
     end.

(** The labels of a summary for scorer names that the renaming leaves
    alone. *)
Definition summary_labels (scoring : list string) : list string :=
  "classifier_name" :: "fit_time" :: "score_time" ::
  flat_map (fun m => [("validation_" ++ m)%string; ("train_" ++ m)%string])
           scoring.

(** A dict with a key that is the name column's label. *)
Definition named_scores : cv_dict :=
  [ ("classifier_name", [1; 3]%Q); ("test_f1", [1#2; 1#2]%Q) ].

(** A dict of sequences of different lengths, and one of empty
    sequences. *)
Definition ragged_scores : cv_dict :=
  [ ("test_f1", [1#2; 1#2]%Q); ("train_f1", [1]%Q) ].

Definition no_fold_scores : cv_dict :=
  [ ("fit_time", []); ("test_f1", []); ("train_f1", []) ].

(** A world like [sample_world] whose data file reads as [r]. *)
Definition world_reading (r : result frame) : world :=
  {| int_of_str := decimal;
     read_csv := fun _ => r;
     cross_validate := fun _ _ _ scoring _ => Ok (sample_scores scoring);
     to_csv := fun _ _ => Ok tt |}.

(** The progress messages of a complete run, in order. *)
Definition said_on_the_way : list string :=
  [ "Training Data Imported..."; "Preprocessor Created...";
    "Evaluating Decision Tree"; "Evaluating k_Nearest_Neighbor";
    "Evaluating SVC (RBF kernel)"; "Evaluating Logistic Regression";
    "Evaluating Random Forest"; "Evaluation Complete..." ].



(** The columns the preprocessor of [main] lists, pipeline after
    pipeline, and the group [get_feature_lists] declares as dropped. *)
Definition routed_features : list string := concat (map snd preprocessor).

Definition declared_drop_features : list string :=
  let '(_, _, _, _, drop_features, _) := get_feature_lists in drop_features.

(** What [cross_validate] returns for two scorers registered under the
    names test_a and validation_a. *)
Definition scorer_clash_scores : cv_dict :=
  [ ("fit_time", [1#4; 3#4]%Q); ("score_time", [1#8; 3#8]%Q);
    ("test_test_a", [1; 1]%Q); ("train_test_a", [2; 2]%Q);
    ("test_validation_a", [3; 3]%Q); ("train_validation_a", [4; 4]%Q) ].

(** The renaming the comment of line 63 describes: a key that starts with
    test_ gets validation_ in place of that prefix, any other key stays. *)
Definition rename_prefix (k : string) : string :=
  if Str.startswith "test_" k
  then ("validation_" ++ String.substring 5 (String.length k - 5) k)%string
  else k.

(** The world [w] with another [cross_validate]. *)
Definition with_cross_validate (w : world)
    (cv : estimator -> frame -> frame -> list string -> Z -> result cv_dict)
  : world :=
  {| int_of_str := int_of_str w;
     read_csv := read_csv w;
     cross_validate := cv;
     to_csv := to_csv w |}.

(** ** [summarize_cv_scores] over float64 columns

    The arrays of a score dict are float64 arrays, and line 69 reduces each
    column with [DataFrame.mean].  This module is the function of lines
    61-73 again, over binary64 values (the kernel's [float]), with that
    reduction as the parameter [mean_of] of the frame-level [mean]: pandas
    computes it as [nanmean] below, and the order in which numpy adds a long
    column is numpy's own.  Labels, renaming and selection are those of the
    model over exact values. *)

Module Float64.

Local Open Scope result_scope.

Inductive cell : Type :=
| Num (x : float)
| Str (s : string).

Definition cv_dict : Type := list (string * list float).
Definition series : Type := list (string * float).
Definition frame : Type := list (string * list cell).

Definition columns (f : frame) : list string := map fst f.

Definition n_rows (f : frame) : nat :=
  match f with
  | [] => 0
  | (_, c) :: _ => List.length c
  end.

Definition same_length (X : cv_dict) : bool :=
  match X with
  | [] => true
  | (_, v) :: rest =>
      forallb (fun kv => Nat.eqb (List.length (snd kv)) (List.length v)) rest
  end.

Definition DataFrame (X : cv_dict) : result cv_dict :=
  if same_length X then Ok X else Raise ValueError.

(** [pandas.core.nanops.nanmean] on one column: a NaN entry is replaced by
    0 in the sum and left out of the count; the sum is taken in float64 in
    the order of the entries, which is numpy's order for a column of fewer
    than eight entries; a column with no entry left has mean NaN. *)
Definition nansum (xs : list float) : float :=
  fold_left (fun acc x =>
               PrimFloat.add acc (if PrimFloat.is_nan x then 0%float else x))
            xs 0%float.

Definition count (xs : list float) : Z :=
  Z.of_nat (List.length (List.filter (fun x => negb (PrimFloat.is_nan x)) xs)).

Definition nanmean (xs : list float) : float :=
  if Z.eqb (count xs) 0 then PrimFloat.nan
  else PrimFloat.div (nansum xs) (PrimFloat.of_uint63 (Uint63.of_Z (count xs))).

(** [f.columns = labels]: the labels are assigned by position. *)
Definition set_columns (f : frame) (labels : list string) : result frame :=
  if Nat.eqb (List.length labels) (List.length f)
  then Ok (map (fun lc => (fst lc, snd (snd lc))) (combine labels f))
  else Raise ValueError.

Definition has_label (k : string) (f : frame) : bool :=
  existsb (fun c => String.eqb (fst c) k) f.

(** [f[k] = v] with a scalar [v]: every column labelled [k] is overwritten;
    when there is none, a new last column is added. *)
Definition setitem (f : frame) (k : string) (v : cell) : frame :=
  let col := repeat v (n_rows f) in
  if has_label k f
  then map (fun c => if String.eqb (fst c) k then (fst c, col) else c) f
  else f ++ [(k, col)].

Definition take (k : string) (f : frame) : frame :=
  List.filter (fun c => String.eqb (fst c) k) f.

(** [f[labels]]: for each requested label in turn, every column carrying
    it; a label that is absent raises. *)
Fixpoint getitem (f : frame) (labels : list string) : result frame :=
  match labels with
  | [] => Ok []
  | k :: rest =>
      match take k f with
      | [] => Raise KeyError
      | cs => do more <- getitem f rest; Ok (cs ++ more)
      end
  end.

(** [pd.DataFrame(s).T]: one row, one column per label of the series. *)
Definition to_row (s : series) : frame :=
  map (fun kc => (fst kc, [Num (snd kc)])) s.

Section Reduction.

(** What [DataFrame.mean] makes of one column. *)
Variable mean_of : list float -> float.

(** [X_df.mean()]: a float64 series indexed by the column labels. *)
Definition mean (f : cv_dict) : series :=
  map (fun kv => (fst kv, mean_of (snd kv))) f.

Definition summarize_cv_scores (X : cv_dict) (classifier_name : string)
  : result frame :=
  do X_df <- DataFrame X;
  do col_names <- Pandas.str_replace (keys X_df) "test_" "validation_";
  let X_df := to_row (mean X_df) in
  do X_df <- set_columns X_df col_names;
  let X_df := setitem X_df "classifier_name" (Str classifier_name) in
  let col_names := "classifier_name" :: col_names in
  getitem X_df col_names.

(** The frame of line 70: the renamed labels over the column means. *)
Definition mean_row (X : cv_dict) : frame :=
  map (fun kv => (Str.replace "test_" "validation_" (fst kv),
                  [Num (mean_of (snd kv))])) X.

End Reduction.



End Float64.


(** The toy dict of the self test (lines 195-214) as the float64 arrays it
    is made of. *)
Definition toy_score_float64 : Float64.cv_dict :=
  let half := [0.5; 0.5; 0.5; 0.5; 0.5]%float in
  let zero := [0.0; 0.0; 0.0; 0.0; 0.0]%float in
  [ ("fit_time",
     [0.02657628; 0.02356863; 0.02640152; 0.02609539; 0.02393484]%float);
    ("score_time",
     [0.02375078; 0.02024961; 0.02282763; 0.02582216; 0.0217247]%float);
    ("test_accuracy", half);
    ("train_accuracy", half);
    ("test_f1", zero);
    ("train_f1", zero);
    ("test_recall", zero);
    ("train_recall", zero);
    ("test_precision", zero);
    ("train_precision", zero);
    ("test_average_precision", half);
    ("train_average_precision", half);
    ("test_roc_auc", half);
    ("train_roc_auc", half) ].

(** * Properties *)

(** ** String replacement *)

Section Replace.

Lemma scan_here (old new : string) (c : ascii) (rest : string) :
  Str.scan old new 0 (String c rest) =
  if String.prefix old (String c rest)
  then (new ++ Str.scan old new (String.length old - 1) rest)%string
  else String c (Str.scan old new 0 rest).
Proof. reflexivity. Qed.

Lemma has_char_cons (c a : ascii) (s : string) :
  has_char c (String a s) = Ascii.eqb c a || has_char c s.
Proof. reflexivity. Qed.

(** A key either has no occurrence of the pattern and stays as it is, or
    its image has the letter v of "validation_". *)
Lemma rename_same_or_v (k : string) :
  rename k = k \/ has_char "v" (rename k) = true.
Proof.
  unfold rename, Str.replace.
  induction k as [|c k IH]; [now left|].
  rewrite scan_here.
  destruct (String.prefix "test_" (String c k)).
  - right. reflexivity.
  - destruct IH as [IH|IH].
    + left. now rewrite IH.
    + right. rewrite has_char_cons, IH. apply orb_true_r.
Qed.

Lemma rename_classifier_name (k : string) :
  rename k = "classifier_name" -> k = "classifier_name".
Proof.
  intros H. destruct (rename_same_or_v k) as [E|E].
  - congruence.
  - rewrite H in E. discriminate E.
Qed.

(** A held-out key: the prefix is replaced, and the scan goes on in what
    follows it. *)
Lemma rename_test_prefix (m : string) :
  rename ("test_" ++ m) = ("validation_" ++ rename m)%string.
Proof.
  unfold rename, Str.replace.
  destruct m as [|c m]; reflexivity.
Qed.

Lemma rename_no_occurrence (k : string) :
  Str.contains "test_" k = false -> rename k = k.
Proof.
  unfold rename, Str.replace.
  induction k as [|c k IH]; [reflexivity|].
  intros H. rewrite scan_here.
  change (Str.contains "test_" (String c k))
    with (String.prefix "test_" (String c k) || Str.contains "test_" k) in H.
  apply orb_false_iff in H as [H1 H2].
  rewrite H1, (IH H2). reflexivity.
Qed.

End Replace.

(** ** Frames *)

Section Frames.

Implicit Types (f g : frame) (k : string) (X : cv_dict).

Lemma mem_string_In (s : string) (l : list string) :
  mem_string s l = true <-> In s l.
Proof.
  unfold mem_string. rewrite existsb_exists. split.
  - intros [x [H1 H2]]. apply String.eqb_eq in H2. now subst.
  - intros H. exists s. split; [exact H|apply String.eqb_refl].
Qed.

Lemma nodupb_NoDup (l : list string) : nodupb l = true -> NoDup l.
Proof.
  induction l as [|x l IH]; intros H; [constructor|].
  simpl in H. apply andb_true_iff in H as [H1 H2].
  constructor; [|now apply IH].
  intros Hin. apply mem_string_In in Hin. rewrite Hin in H1. discriminate.
Qed.

Lemma same_length_of_Forall X (n : nat) :
  Forall (fun kv => List.length (snd kv) = n) X -> Pandas.same_length X = true.
Proof.
  destruct X as [|[k v] X]; [reflexivity|].
  intros H. inversion H as [|? ? Hv HX]; subst. simpl in *.
  apply forallb_forall. intros kv Hin.
  rewrite Forall_forall in HX. rewrite (HX _ Hin). apply Nat.eqb_refl.
Qed.

Lemma relabel_mean_row X :
  map (fun lc : string * (string * list cell) => (fst lc, snd (snd lc)))
      (combine (map rename (keys X)) (Pandas.to_row (Pandas.mean X)))
  = mean_row X.
Proof.
  induction X as [|[k v] X IH]; [reflexivity|].
  simpl. f_equal. exact IH.
Qed.

Lemma set_columns_mean_row X :
  Pandas.set_columns (Pandas.to_row (Pandas.mean X)) (map rename (keys X))
  = Ok (mean_row X).
Proof.
  unfold Pandas.set_columns, Pandas.to_row, Pandas.mean, keys.
  rewrite !length_map, Nat.eqb_refl. f_equal. apply relabel_mean_row.
Qed.

Lemma columns_mean_row X : columns (mean_row X) = map rename (keys X).
Proof.
  unfold columns, mean_row, keys. rewrite !map_map. reflexivity.
Qed.

Lemma n_rows_mean_row X : X <> [] -> n_rows (mean_row X) = 1.
Proof. destruct X as [|[k v] X]; [congruence|reflexivity]. Qed.

Lemma has_label_In k f : Pandas.has_label k f = true <-> In k (columns f).
Proof.
  unfold Pandas.has_label, columns. rewrite existsb_exists, in_map_iff.
  split; intros [c [H1 H2]]; exists c.
  - apply String.eqb_eq in H2. auto.
  - split; [exact H2|]. now apply String.eqb_eq.
Qed.

Lemma In_take k f (c : string * list cell) :
  In c (Pandas.take k f) <-> In c f /\ fst c = k.
Proof.
  unfold Pandas.take. rewrite filter_In, String.eqb_eq. reflexivity.
Qed.

Lemma take_nonempty k f : In k (columns f) -> Pandas.take k f <> [].
Proof.
  unfold columns. rewrite in_map_iff. intros [c [H1 H2]] E.
  assert (Hc : In c (Pandas.take k f)) by (apply In_take; auto).
  rewrite E in Hc. exact Hc.
Qed.

(** Selecting labels that are all present gives, label after label, the
    columns that carry it. *)
Lemma getitem_present f (labels : list string) :
  (forall k, In k labels -> In k (columns f)) ->
  Pandas.getitem f labels
  = Ok (flat_map (fun k => Pandas.take k f) labels).
Proof.
  induction labels as [|k labels IH]; intros H; [reflexivity|].
  simpl. rewrite IH by (intros; apply H; now right). simpl.
  pose proof (take_nonempty k f (H k (or_introl eq_refl))) as Hne.
  destruct (Pandas.take k f); [congruence|reflexivity].
Qed.

Lemma columns_setitem k f (v : cell) :
  columns (Pandas.setitem f k v)
  = if Pandas.has_label k f then columns f else columns f ++ [k].
Proof.
  unfold Pandas.setitem, columns.
  destruct (Pandas.has_label k f).
  - rewrite map_map. apply map_ext. intros c.
    destruct (String.eqb (fst c) k); reflexivity.
  - rewrite map_app. reflexivity.
Qed.

Lemma In_columns_setitem k k' f (v : cell) :
  In k' (columns (Pandas.setitem f k v)) <-> k' = k \/ In k' (columns f).
Proof.
  rewrite columns_setitem.
  destruct (Pandas.has_label k f) eqn:E.
  - apply has_label_In in E. split; [auto|]. intros [->|H]; auto.
  - rewrite in_app_iff. simpl. intuition congruence.
Qed.

(** What a frame holds after [f[k] = v]: the new column under [k], and
    the columns of [f] under every other label. *)
Lemma In_setitem k f (v : cell) (c : string * list cell) :
  In c (Pandas.setitem f k v) <->
  c = (k, repeat v (n_rows f)) \/ (In c f /\ fst c <> k).
Proof.
  unfold Pandas.setitem.
  destruct (Pandas.has_label k f) eqn:E.
  - rewrite in_map_iff. split.
    + intros [c0 [H1 H2]].
      destruct (String.eqb (fst c0) k) eqn:Ek.
      * apply String.eqb_eq in Ek. left. rewrite <- H1. now f_equal.
      * apply String.eqb_neq in Ek. right. rewrite <- H1. auto.
    + intros [H|[H1 H2]].
      * apply has_label_In in E. unfold columns in E.
        apply in_map_iff in E as [c0 [E1 E2]]. exists c0.
        apply String.eqb_eq in E1 as E1'. rewrite E1'.
        rewrite E1. auto.
      * exists c. apply String.eqb_neq in H2. rewrite H2. auto.
  - rewrite in_app_iff. simpl. split.
    + intros [H|[H|[]]].
      * right. split; [exact H|]. intros Hk.
        assert (Hl : Pandas.has_label k f = true).
        { apply has_label_In. unfold columns. apply in_map_iff. eauto. }
        congruence.
      * left. auto.
    + intros [H|[H1 H2]]; auto.
Qed.

End Frames.

(** ** [summarize_cv_scores] *)

Section Summary.

Implicit Types (X : cv_dict) (k name : string).

(** On a non-empty dict of sequences of one length the function returns,
    and this is the row. *)
Lemma summarize_cv_scores_value X name :
  X <> [] -> Pandas.same_length X = true ->
  summarize_cv_scores X name
  = Ok (flat_map
          (fun k => Pandas.take k
                      (Pandas.setitem (mean_row X) "classifier_name"
                                      (Str name)))
          ("classifier_name" :: map rename (keys X))).
Proof.
  intros Hne Hlen. unfold summarize_cv_scores, Pandas.DataFrame.
  rewrite Hlen. cbn [rbind].
  destruct X as [|kv X]; [congruence|].
  unfold Pandas.str_replace. cbn [keys map rbind].
  change (Str.replace "test_" "validation_" (fst kv)
          :: map (Str.replace "test_" "validation_") (map fst X))
    with (map rename (keys (kv :: X))).
  rewrite set_columns_mean_row. cbn [rbind].
  apply getitem_present. intros k Hk.
  apply In_columns_setitem. destruct Hk as [Hk|Hk]; [now left|right].
  now rewrite columns_mean_row.
Qed.

Lemma In_mean_row X (c : string * list cell) :
  In c (mean_row X) <->
  exists k v, In (k, v) X /\ c = (rename k, [Pandas.mean_of v]).
Proof.
  unfold mean_row. rewrite in_map_iff. split.
  - intros [[k v] [H1 H2]]. exists k, v. auto.
  - intros [k [v [H1 H2]]]. exists (k, v). auto.
Qed.

Lemma take_absent k (f : frame) :
  ~ In k (columns f) -> Pandas.take k f = [].
Proof.
  intros H. destruct (Pandas.take k f) as [|c cs] eqn:E; [reflexivity|].
  exfalso. apply H.
  assert (Hc : In c (Pandas.take k f)) by (rewrite E; now left).
  apply In_take in Hc as [Hc <-]. unfold columns. now apply in_map.
Qed.

(** With labels that do not repeat, a label selects its one column. *)
Lemma take_unique (f : frame) (c : string * list cell) :
  NoDup (columns f) -> In c f -> Pandas.take (fst c) f = [c].
Proof.
  induction f as [|d f IH]; intros Hnd Hin; [destruct Hin|].
  simpl in Hnd. inversion Hnd as [|? ? Hd Hf]; subst.
  unfold Pandas.take. cbn [List.filter].
  destruct Hin as [->|Hin].
  - rewrite String.eqb_refl. f_equal. now apply take_absent.
  - destruct (String.eqb (fst d) (fst c)) eqn:E.
    + apply String.eqb_eq in E. exfalso. apply Hd. rewrite E.
      unfold columns. now apply in_map.
    + now apply IH.
Qed.

Lemma select_own_columns (f sub : frame) :
  NoDup (columns f) -> (forall c, In c sub -> In c f) ->
  flat_map (fun k => Pandas.take k f) (columns sub) = sub.
Proof.
  intros Hnd. induction sub as [|c sub IH]; intros Hsub; [reflexivity|].
  cbn [columns map flat_map].
  rewrite (take_unique f c Hnd) by (apply Hsub; now left).
  simpl. f_equal. apply IH. intros; apply Hsub; now right.
Qed.

Lemma NoDup_columns_setitem k (f : frame) (v : cell) :
  NoDup (columns f) -> NoDup (columns (Pandas.setitem f k v)).
Proof.
  intros Hnd. rewrite columns_setitem.
  destruct (Pandas.has_label k f) eqn:E; [exact Hnd|].
  apply NoDup_app; [exact Hnd | repeat constructor; auto |].
  intros a Ha [<-|[]].
  apply has_label_In in Ha. congruence.
Qed.

(** The row when the renamed keys are pairwise distinct and none of the
    keys is the name column's label. *)
Lemma summarize_cv_scores_row X name :
  X <> [] -> Pandas.same_length X = true ->
  NoDup (map rename (keys X)) -> ~ In "classifier_name" (keys X) ->
  summarize_cv_scores X name
  = Ok (("classifier_name", [Str name]) :: mean_row X).
Proof.
  intros Hne Hlen Hnd Hcn.
  rewrite summarize_cv_scores_value by assumption. f_equal.
  assert (Hfresh : ~ In "classifier_name" (columns (mean_row X))).
  { rewrite columns_mean_row. unfold keys in *. rewrite in_map_iff.
    intros [k [E Hk]]. apply rename_classifier_name in E. congruence. }
  assert (Hset : Pandas.setitem (mean_row X) "classifier_name" (Str name)
                 = mean_row X ++ [("classifier_name", [Str name])]).
  { unfold Pandas.setitem. rewrite n_rows_mean_row by assumption.
    destruct (Pandas.has_label "classifier_name" (mean_row X)) eqn:E;
      [|reflexivity].
    apply has_label_In in E. contradiction. }
  rewrite Hset.
  assert (Hall : NoDup (columns (mean_row X
                                 ++ [("classifier_name", [Str name])]))).
  { rewrite <- Hset. apply NoDup_columns_setitem.
    now rewrite columns_mean_row. }
  cbn [flat_map]. rewrite <- columns_mean_row.
  rewrite (select_own_columns _ (mean_row X) Hall)
    by (intros; apply in_or_app; now left).
  change "classifier_name"
    with (fst ("classifier_name", [Str name])) at 1.
  rewrite (take_unique _ _ Hall) by (apply in_or_app; right; now left).
  reflexivity.
Qed.

(** C3: the toy run of the self test.  One row; the name column holds
    "toy_test"; held-out and training accuracy are 1/2, held-out and
    training F1 are 0; the thirteen columns the self test compares are the
    expected ones.  The same holds for the dict of the four sequences
    alone. *)
Theorem summarize_cv_scores_toy :
  summarize_cv_scores toy_score "toy_test" = Ok toy_row /\
  n_rows toy_row = 1 /\
  Forall (fun c => List.length (snd c) = 1) toy_row /\
  Pandas.take "classifier_name" toy_row
    = [("classifier_name", [Str "toy_test"])] /\
  Pandas.take "validation_accuracy" toy_row
    = [("validation_accuracy", [Num (1#2)])] /\
  Pandas.take "train_accuracy" toy_row = [("train_accuracy", [Num (1#2)])] /\
  Pandas.take "validation_f1" toy_row = [("validation_f1", [Num 0])] /\
  Pandas.take "train_f1" toy_row = [("train_f1", [Num 0])] /\
  Pandas.getitem toy_row (columns expected) = Ok expected /\
  summarize_cv_scores toy_four "toy_test"
    = Ok [ ("classifier_name", [Str "toy_test"]);
           ("validation_accuracy", [Num (1#2)]);
           ("train_accuracy", [Num (1#2)]);
           ("validation_f1", [Num 0]);
           ("train_f1", [Num 0]) ].
Proof.
  split; [vm_compute; reflexivity|].
  split; [reflexivity|].
  split; [repeat constructor|].
  repeat (split; [vm_compute; reflexivity|]). vm_compute. reflexivity.
Qed.

(** C2 at [latest_scores]: the training key train_latest_f1 does not start
    with the held-out prefix and is renamed all the same, and the held-out
    key test_latest_f1 loses more than its prefix. *)
Theorem summarize_cv_scores_latest :
  Str.startswith "test_" "train_latest_f1" = false /\
  rename "train_latest_f1" = "train_lavalidation_f1" /\
  rename "test_latest_f1" = "validation_lavalidation_f1" /\
  summarize_cv_scores latest_scores "m"
    = Ok [ ("classifier_name", [Str "m"]);
           ("fit_time", [Num (1#2)]);
           ("score_time", [Num (1#4)]);
           ("validation_lavalidation_f1", [Num (1#2)]);
           ("train_lavalidation_f1", [Num 1]) ].
Proof. repeat (split; [vm_compute; reflexivity|]). vm_compute. reflexivity. Qed.

(** C5 at [scorer_clash_scores], the dict of two scorers named test_a and
    validation_a.  Its six keys are pairwise distinct and would stay so
    under the renaming of the prefix alone; the replacement of line 65
    sends the two held-out keys to one label and the two training keys to
    another, and the row has ten columns after the name column instead of
    six, so its columns do not follow the keys one for one. *)
Theorem summarize_cv_scores_scorer_clash :
  keys scorer_clash_scores = cv_keys ["test_a"; "validation_a"] /\
  NoDup (keys scorer_clash_scores) /\
  NoDup (map rename_prefix (keys scorer_clash_scores)) /\
  map rename (keys scorer_clash_scores)
  = [ "fit_time"; "score_time";
      "validation_validation_a"; "train_validation_a";
      "validation_validation_a"; "train_validation_a" ] /\
  summarize_cv_scores scorer_clash_scores "m"
  = Ok [ ("classifier_name", [Str "m"]);
         ("fit_time", [Num (1#2)]);
         ("score_time", [Num (1#4)]);
         ("validation_validation_a", [Num 1]);
         ("validation_validation_a", [Num 3]);
         ("train_validation_a", [Num 2]);
         ("train_validation_a", [Num 4]);
         ("validation_validation_a", [Num 1]);
         ("validation_validation_a", [Num 3]);
         ("train_validation_a", [Num 2]);
         ("train_validation_a", [Num 4]) ].
Proof.
  split; [reflexivity|].
  split; [apply nodupb_NoDup; reflexivity|].
  split; [apply nodupb_NoDup; reflexivity|].
  split; vm_compute; reflexivity.
Qed.

End Summary.

(** ** [get_hyperparameter_grid] and [get_feature_lists] *)

Section Helpers.

(** C10: a grid for random_forest only, [None] for the other four
    accepted names, a failed assertion for every other string.  (The
    assertion is taken to be on, as it is unless Python runs with -O.) *)
Theorem get_hyperparameter_grid_cases :
  get_hyperparameter_grid "random_forest"
    = Ok (Some [ ("randomforestclassifier__n_estimators",
                  [500; 600; 700; 800; 900; 1000]%Z);
                 ("randomforestclassifier__min_samples_split",
                  [4; 5; 6; 7; 8; 9; 10]%Z) ]) /\
  (forall name,
     In name ["decision_tree"; "knn"; "svc"; "logistic_regression"] ->
     get_hyperparameter_grid name = Ok None) /\
  (forall name,
     ~ In name model_names ->
     get_hyperparameter_grid name = Raise AssertionError) /\
  (forall name grid,
     get_hyperparameter_grid name = Ok (Some grid) ->
     name = "random_forest").
Proof.
  split; [reflexivity|]. split; [|split].
  - intros name H. simpl in H.
    destruct H as [<-|[<-|[<-|[<-|[]]]]]; reflexivity.
  - intros name H. unfold get_hyperparameter_grid.
    destruct (mem_string name model_names) eqn:E; [|reflexivity].
    apply mem_string_In in E. contradiction.
  - intros name grid. unfold get_hyperparameter_grid.
    destruct (mem_string name model_names); [|discriminate].
    cbn [negb]. destruct (String.eqb name "random_forest") eqn:E.
    + intros _. now apply String.eqb_eq.
    + discriminate.
Qed.

Lemma get_hyperparameter_grid_cases_witness :
  get_hyperparameter_grid "knn" = Ok None /\
  get_hyperparameter_grid "xgboost" = Raise AssertionError.
Proof.
  destruct get_hyperparameter_grid_cases as [_ [Hnone [Hbad _]]].
  split.
  - apply Hnone. right. left. reflexivity.
  - apply Hbad. intros H. apply mem_string_In in H. discriminate H.
Defined.

Lemma disjointb_disjoint (a b : list string) :
  disjointb a b = true -> forall x, In x a -> ~ In x b.
Proof.
  unfold disjointb. rewrite forallb_forall. intros H x Ha Hb.
  apply H in Ha. apply mem_string_In in Hb. rewrite Hb in Ha. discriminate.
Qed.

(** C8: the six lists are fixed, no name occurs twice in a list, and no
    name occurs in two lists. *)
Theorem get_feature_lists_partition :
  List.length (groups get_feature_lists) = 6 /\
  Forall (@NoDup string) (groups get_feature_lists) /\
  ForallOrdPairs (fun a b => forall x, In x a -> ~ In x b)
                 (groups get_feature_lists) /\
  NoDup (concat (groups get_feature_lists)) /\
  List.length (concat (groups get_feature_lists)) = 30.
Proof.
  split; [reflexivity|]. split; [|split; [|split]].
  - repeat (constructor; [apply nodupb_NoDup; reflexivity|]). constructor.
  - repeat constructor; apply disjointb_disjoint; reflexivity.
  - apply nodupb_NoDup. reflexivity.
  - reflexivity.
Qed.

End Helpers.

(** ** The store: what a call leaves behind *)

Section StoreFacts.

Implicit Types (h : Store.heap) (X : Store.loc) (name : string).

Lemma fresh_unused h : h !! fresh (dom h) = None.
Proof. apply not_elem_of_dom, is_fresh. Qed.

Lemma load_items_heap (d : list (string * Store.loc)) h :
  snd (Store.load_items d h) = h.
Proof.
  induction d as [|[k l] d IH]; [reflexivity|].
  cbn [Store.load_items]. unfold Store.bind, Store.load_array.
  destruct (h !! l) as [[xs| | |]|]; try reflexivity.
  destruct (Store.load_items d h) as [[more|e] h1]; simpl in *; now subst.
Qed.

Lemma read_dict_heap X h : snd (Store.read_dict X h) = h.
Proof.
  unfold Store.read_dict. destruct (h !! X) as [[| d | |]|]; try reflexivity.
  apply load_items_heap.
Qed.

(** Reading a dict depends only on the objects it reaches. *)
Lemma load_items_weaken (d : list (string * Store.loc)) h h' (c : cv_dict) :
  h ⊆ h' -> fst (Store.load_items d h) = Ok c ->
  fst (Store.load_items d h') = Ok c.
Proof.
  intros Hsub. revert c. induction d as [|[k l] d IH]; intros c; [easy|].
  cbn [Store.load_items]. unfold Store.bind, Store.load_array.
  destruct (h !! l) as [[xs| | |]|] eqn:E; try discriminate.
  rewrite (lookup_weaken _ _ _ _ E Hsub).
  pose proof (load_items_heap d h) as Hh.
  pose proof (load_items_heap d h') as Hh'.
  destruct (Store.load_items d h) as [[more|e] h1]; [|discriminate].
  specialize (IH more eq_refl).
  destruct (Store.load_items d h') as [[more'|e'] h1']; simpl in *;
    [|discriminate].
  congruence.
Qed.

Lemma read_dict_weaken X h h' (c : cv_dict) :
  h ⊆ h' -> fst (Store.read_dict X h) = Ok c ->
  fst (Store.read_dict X h') = Ok c.
Proof.
  intros Hsub. unfold Store.read_dict.
  destruct (h !! X) as [[| d | |]|] eqn:E; try discriminate.
  rewrite (lookup_weaken _ _ _ _ E Hsub). now apply load_items_weaken.
Qed.

Lemma wp_bind {A B : Type} (m : Store.M A) (k : A -> Store.M B) h
    (Q : result B -> Store.heap -> Prop) :
  Store.wp m h (fun r h' => match r with
                      | Ok a => Store.wp (k a) h' Q
                      | Raise e => Q (Raise e) h'
                      end) ->
  Store.wp (Store.bind m k) h Q.
Proof. unfold Store.wp, Store.bind. destruct (m h) as [[a|e] h']; auto. Qed.

Lemma wp_lift {A : Type} (r : result A) h
    (Q : result A -> Store.heap -> Prop) :
  Q r h -> Store.wp (Store.lift r) h Q.
Proof. auto. Qed.

Lemma wp_alloc (o : Store.obj) h
    (Q : result Store.loc -> Store.heap -> Prop) :
  Q (Ok (fresh (dom h))) (<[fresh (dom h) := o]> h) ->
  Store.wp (Store.alloc o) h Q.
Proof. auto. Qed.

Lemma wp_read_dict X h (Q : result cv_dict -> Store.heap -> Prop) :
  Q (fst (Store.read_dict X h)) h -> Store.wp (Store.read_dict X) h Q.
Proof. unfold Store.wp. now rewrite read_dict_heap. Qed.

Lemma wp_load_num_frame (l : Store.loc) (f : num_frame) h
    (Q : result num_frame -> Store.heap -> Prop) :
  h !! l = Some (Store.ONumFrame f) -> Q (Ok f) h ->
  Store.wp (Store.load_num_frame l) h Q.
Proof. unfold Store.wp, Store.load_num_frame. now intros ->. Qed.

Lemma wp_load_frame (l : Store.loc) (f : frame) h
    (Q : result frame -> Store.heap -> Prop) :
  h !! l = Some (Store.OFrame f) -> Q (Ok f) h ->
  Store.wp (Store.load_frame l) h Q.
Proof. unfold Store.wp, Store.load_frame. now intros ->. Qed.

Lemma wp_store_frame (l : Store.loc) (f : frame) h
    (Q : result unit -> Store.heap -> Prop) :
  Q (Ok tt) (<[l := Store.OFrame f]> h) ->
  Store.wp (Store.store_frame l f) h Q.
Proof. auto. Qed.

Lemma unused_below h h' (l : Store.loc) :
  h ⊆ h' -> h' !! l = None -> h !! l = None.
Proof.
  intros Hsub Hl. destruct (h !! l) as [o|] eqn:E; [|reflexivity].
  rewrite (lookup_weaken _ _ _ _ E Hsub) in Hl. discriminate.
Qed.

(** A call only adds objects, and it ends as the function on values does
    on the contents of the dict at [X]; the row is a new object. *)
Lemma summarize_cv_scores_run X name h :
  Store.wp (Store.summarize_cv_scores X name) h
    (fun r h' =>
       h ⊆ h' /\
       match fst (Store.read_dict X h) with
       | Ok d =>
           match summarize_cv_scores d name with
           | Ok row => exists l, r = Ok l /\ h !! l = None /\
                                 h' !! l = Some (Store.OFrame row)
           | Raise e => r = Raise e
           end
       | Raise e => r = Raise e
       end).
Proof.
  unfold Store.summarize_cv_scores, summarize_cv_scores.
  apply wp_bind, wp_read_dict.
  destruct (fst (Store.read_dict X h)) as [d|e]; [|split; reflexivity].
  apply wp_bind, wp_lift.
  destruct (Pandas.DataFrame d) as [f|e]; cbn [rbind];
    [|split; reflexivity].
  apply wp_bind, wp_alloc.
  set (l1 := fresh (dom h)). set (h1 := <[l1 := Store.ONumFrame f]> h).
  assert (H1 : h ⊆ h1) by apply insert_subseteq, fresh_unused.
  apply wp_bind, (wp_load_num_frame l1 f); [apply lookup_insert_eq|].
  apply wp_bind, wp_lift.
  destruct (Pandas.str_replace (keys f) "test_" "validation_") as [cols|e];
    cbn [rbind]; [|split; [exact H1|reflexivity]].
  apply wp_bind, wp_alloc.
  set (l2 := fresh (dom h1)).
  set (h2 := <[l2 := Store.OFrame (Pandas.to_row (Pandas.mean f))]> h1).
  assert (Hl2 : h !! l2 = None)
    by (apply (unused_below h h1); [exact H1|apply fresh_unused]).
  assert (H2 : h ⊆ h2) by (apply insert_subseteq_r; assumption).
  apply wp_bind, (wp_load_frame l2 (Pandas.to_row (Pandas.mean f)));
    [apply lookup_insert_eq|].
  apply wp_bind, wp_lift.
  destruct (Pandas.set_columns (Pandas.to_row (Pandas.mean f)) cols)
    as [f1|e]; cbn [rbind]; [|split; [exact H2|reflexivity]].
  apply wp_bind, wp_store_frame.
  set (h3 := <[l2 := Store.OFrame f1]> h2).
  assert (H3 : h ⊆ h3) by (apply insert_subseteq_r; assumption).
  apply wp_bind, (wp_load_frame l2 f1); [apply lookup_insert_eq|].
  apply wp_bind, wp_store_frame.
  set (f2 := Pandas.setitem f1 "classifier_name" (Str name)).
  set (h4 := <[l2 := Store.OFrame f2]> h3).
  assert (H4 : h ⊆ h4) by (apply insert_subseteq_r; assumption).
  apply wp_bind, (wp_load_frame l2 f2); [apply lookup_insert_eq|].
  apply wp_bind, wp_lift.
  destruct (Pandas.getitem f2 ("classifier_name" :: cols)) as [row|e];
    [|split; [exact H4|reflexivity]].
  apply wp_alloc.
  assert (Hl3 : h !! fresh (dom h4) = None)
    by (apply (unused_below h h4); [exact H4|apply fresh_unused]).
  split; [apply insert_subseteq_r; assumption|].
  exists (fresh (dom h4)).
  split; [reflexivity|]. split; [exact Hl3|apply lookup_insert_eq].
Qed.

(** C7: whatever the store and whether the call returns or raises, every
    object that was in the store is in it unchanged afterwards; so the
    dict at [X] is the same object, and reading it gives the same keys
    with the same sequences as before. *)
Theorem summarize_cv_scores_keeps_argument X name h (d : cv_dict) :
  fst (Store.read_dict X h) = Ok d ->
  let h' := snd (Store.summarize_cv_scores X name h) in
  h' !! X = h !! X /\
  fst (Store.read_dict X h') = Ok d /\
  (forall (l : Store.loc) (o : Store.obj), h !! l = Some o -> h' !! l = Some o).
Proof.
  intros Hd h'.
  destruct (summarize_cv_scores_run X name h) as [Hsub _].
  fold h' in Hsub.
  assert (HX : is_Some (h !! X)).
  { unfold Store.read_dict in Hd. destruct (h !! X); [eauto|discriminate]. }
  destruct HX as [o Ho].
  split; [|split].
  - rewrite Ho. exact (lookup_weaken _ _ _ _ Ho Hsub).
  - exact (read_dict_weaken X h h' d Hsub Hd).
  - intros l o' Hl. exact (lookup_weaken _ _ _ _ Hl Hsub).
Qed.

Lemma summarize_cv_scores_keeps_argument_witness :
  let h' := snd (Store.summarize_cv_scores 0 "m" Store.sample_heap) in
  h' !! 0 = Store.sample_heap !! 0 /\
  fst (Store.read_dict 0 h')
    = Ok [("test_f1", [1#2; 1#4]%Q); ("train_f1", [1; 1]%Q)] /\
  (forall (l : Store.loc) (o : Store.obj),
     Store.sample_heap !! l = Some o -> h' !! l = Some o).
Proof.
  apply (summarize_cv_scores_keeps_argument 0 "m" Store.sample_heap).
  vm_compute. reflexivity.
Defined.

(** The store version returns the row the function on values computes. *)
Lemma summarize_cv_scores_refines X name h (d : cv_dict) (row : frame) :
  fst (Store.read_dict X h) = Ok d ->
  summarize_cv_scores d name = Ok row ->
  exists l, fst (Store.summarize_cv_scores X name h) = Ok l /\
            snd (Store.summarize_cv_scores X name h) !! l
            = Some (Store.OFrame row).
Proof.
  intros Hd Hrow.
  destruct (summarize_cv_scores_run X name h) as [_ H].
  rewrite Hd, Hrow in H. destruct H as [l [H1 [_ H2]]]. eauto.
Qed.

End StoreFacts.

(** ** [main]: options, errors and the report *)

Section Main.

Implicit Types (w : world) (v : pyval).

Lemma bind_ret {A B : Type} (a : A) (k : A -> IO.io B) :
  IO.bind (IO.ret a) k = k a.
Proof. unfold IO.bind, IO.ret. now destruct (k a). Qed.

Lemma bind_done {A B : Type} (m : IO.io A) (k : A -> IO.io B)
    (t t' : list event) (a : A) (o : outcome B) :
  m = (t, Done a) -> k a = (t', o) -> IO.bind m k = (t ++ t', o).
Proof. intros -> H. unfold IO.bind. now rewrite H. Qed.

Lemma bind_stopped {A B : Type} (t : list event) (s : stop)
    (k : A -> IO.io B) :
  IO.bind (t, Stopped s) k = (t, Stopped s).
Proof. reflexivity. Qed.

Lemma int_option_value w v (default z : Z) (message : string) (code : Z) :
  int_value w v default = Some z ->
  int_option w v default message code = IO.ret z.
Proof.
  unfold int_value, int_option.
  destruct v; try (intros [= ->]; reflexivity);
    destruct (py_int w _) as [z'|e]; intros [= ->]; reflexivity.
Qed.

Lemma int_option_unparseable w (s : string) (default : Z)
    (message : string) (code : Z) :
  int_of_str w s = None ->
  int_option w (PStr s) default message code
  = ([EPrint message; EPrintExn ValueError; EPrintType ValueError],
     Stopped (Exit code)).
Proof. intros H. unfold int_option, py_int. rewrite H. reflexivity. Qed.

(** C6, amended: an unparseable seed ends the run with code -2; an
    unparseable fold count ends it with code -3 when the seed is absent or
    accepted by [int]; the two codes differ, and in both runs the only
    events are the three messages: nothing is read, nothing evaluated. *)
Theorem main_configuration_errors w (train_data_file report_file : string)
    (verbose : pyval) :
  (forall (s : string) (n_cv_folds : pyval),
     int_of_str w s = None ->
     main w train_data_file report_file n_cv_folds (PStr s) verbose
     = ([ EPrint "Value of chosen_seed should be int";
          EPrintExn ValueError; EPrintType ValueError ],
        Stopped (Exit (-2)))) /\
  (forall (s : string) (chosen_seed : pyval) (seed : Z),
     int_of_str w s = None ->
     int_value w chosen_seed 1 = Some seed ->
     main w train_data_file report_file (PStr s) chosen_seed verbose
     = ([ EPrint "Value of n_cv_folds should be int";
          EPrintExn ValueError; EPrintType ValueError ],
        Stopped (Exit (-3)))) /\
  (-2 <> -3)%Z.
Proof.
  split; [|split; [|discriminate]].
  - intros s n_cv_folds Hs. unfold main.
    rewrite (int_option_unparseable w s _ _ _ Hs). apply bind_stopped.
  - intros s chosen_seed seed Hs Hseed. unfold main.
    rewrite (int_option_value w chosen_seed _ _ _ _ Hseed), bind_ret.
    rewrite (int_option_unparseable w s _ _ _ Hs). apply bind_stopped.
Qed.

Lemma main_configuration_errors_witness :
  main sample_world "train.csv" "report.csv" PNone (PStr "one") PNone
  = ([ EPrint "Value of chosen_seed should be int";
       EPrintExn ValueError; EPrintType ValueError ],
     Stopped (Exit (-2))) /\
  main sample_world "train.csv" "report.csv" (PStr "five") (PStr "7") PNone
  = ([ EPrint "Value of n_cv_folds should be int";
       EPrintExn ValueError; EPrintType ValueError ],
     Stopped (Exit (-3))).
Proof.
  destruct (main_configuration_errors sample_world "train.csv" "report.csv"
              PNone) as [Hseed [Hfolds _]].
  split.
  - apply Hseed. reflexivity.
  - apply (Hfolds "five" (PStr "7") 7%Z); reflexivity.
Defined.

(** C6 as stated fails when both options are unparseable: the run ends
    with the seed's code, not with the fold count's. *)
Lemma main_configuration_errors_counterexample :
  int_of_str sample_world "five" = None /\
  int_of_str sample_world "one" = None /\
  main sample_world "train.csv" "report.csv" (PStr "five") (PStr "one") PNone
  = ([ EPrint "Value of chosen_seed should be int";
       EPrintExn ValueError; EPrintType ValueError ],
     Stopped (Exit (-2))) /\
  IO.ending (main sample_world "train.csv" "report.csv"
                  (PStr "five") (PStr "one") PNone)
  <> Stopped (Exit (-3)).
Proof.
  split; [reflexivity|]. split; [reflexivity|].
  split; [reflexivity|]. discriminate.
Qed.

Lemma effects_app (t1 t2 : list event) :
  effects (t1 ++ t2) = effects t1 ++ effects t2.
Proof. unfold effects. apply filter_app. Qed.

Lemma quiet_refl {A : Type} (m : IO.io A) : quiet_eq m m.
Proof. split; reflexivity. Qed.

Lemma quiet_bind {A B : Type} (m1 m2 : IO.io A) (k1 k2 : A -> IO.io B) :
  quiet_eq m1 m2 -> (forall a, quiet_eq (k1 a) (k2 a)) ->
  quiet_eq (IO.bind m1 k1) (IO.bind m2 k2).
Proof.
  intros [He Ht] Hk. destruct m1 as [t1 o1], m2 as [t2 o2].
  unfold IO.ending, IO.trace in *. cbn [fst snd] in He, Ht. subst o2.
  destruct o1 as [a|s]; [|split; [reflexivity|exact Ht]].
  specialize (Hk a). destruct Hk as [Hke Hkt].
  unfold IO.bind. destruct (k1 a) as [t1' o1'], (k2 a) as [t2' o2'].
  unfold IO.ending, IO.trace in *. cbn -[effects] in *.
  split; [exact Hke|].
  change (effects (t1 ++ t1') = effects (t2 ++ t2')).
  rewrite !effects_app. congruence.
Qed.

Lemma quiet_when (b1 b2 : bool) (s : string) :
  quiet_eq (IO.when b1 (IO.print s)) (IO.when b2 (IO.print s)).
Proof. destruct b1, b2; split; reflexivity. Qed.

Lemma quiet_for_each {A S : Type} (l : list A) (body1 body2 : A -> S -> IO.io S)
    (s : S) :
  (forall a s, quiet_eq (body1 a s) (body2 a s)) ->
  quiet_eq (IO.for_each l body1 s) (IO.for_each l body2 s).
Proof.
  intros H. revert s. induction l as [|a l IH]; intros s.
  - apply quiet_refl.
  - cbn [IO.for_each]. apply quiet_bind; [apply H|exact IH].
Qed.

Ltac quiet :=
  repeat first
    [ apply quiet_when
    | apply quiet_bind; [|intros ?]
    | apply quiet_for_each; intros ? ?
    | apply quiet_refl ].

Lemma main_quiet w (train_data_file report_file : string)
    (n_cv_folds chosen_seed v1 v2 : pyval) :
  quiet_eq (main w train_data_file report_file n_cv_folds chosen_seed v1)
           (main w train_data_file report_file n_cv_folds chosen_seed v2).
Proof.
  unfold main, main_loop_body.
  generalize (verbose_flag v1) (verbose_flag v2). intros b1 b2.
  quiet.
Qed.

(** C9: the flag is on exactly for the string True; any other value turns
    it off, and no value of it changes how the run ends or what it reads,
    evaluates and writes. *)
Theorem verbose_flag_only_True :
  (forall v, verbose_flag v = true <-> v = PStr "True") /\
  verbose_flag (PStr "true") = false /\
  verbose_flag (PStr "1") = false /\
  verbose_flag (PBool true) = false /\
  verbose_flag PNone = false /\
  (forall w (train_data_file report_file : string)
          (n_cv_folds chosen_seed v : pyval),
     IO.ending (main w train_data_file report_file n_cv_folds chosen_seed v)
     = IO.ending (main w train_data_file report_file n_cv_folds chosen_seed
                       PNone) /\
     effects (IO.trace (main w train_data_file report_file n_cv_folds
                             chosen_seed v))
     = effects (IO.trace (main w train_data_file report_file n_cv_folds
                               chosen_seed PNone))).
Proof.
  split; [|repeat (split; [reflexivity|])].
  - intros v. split.
    + destruct v; try discriminate. simpl. intros H.
      apply String.eqb_eq in H. now subst.
    + intros ->. reflexivity.
  - intros. apply main_quiet.
Qed.

End Main.

(** ** The report: one row per model, in registration order *)

Section Report.

Implicit Types (w : world) (d : cv_dict) (f : frame).

Lemma string_list_eqb_refl (l : list string) :
  Pandas2.string_list_eqb l l = true.
Proof.
  unfold Pandas2.string_list_eqb.
  destruct (list_eq_dec string_dec l l); [reflexivity|contradiction].
Qed.

(** The summary of what [cross_validate] returns for the metrics of
    [main]. *)
Lemma summarize_cross_validate d (name : string) :
  keys d = cv_keys eval_metrics -> Pandas.same_length d = true ->
  summarize_cv_scores d name
  = Ok (("classifier_name", [Str name]) :: mean_row d).
Proof.
  intros Hk Hlen. apply summarize_cv_scores_row.
  - intros ->. discriminate Hk.
  - exact Hlen.
  - rewrite Hk. apply nodupb_NoDup. reflexivity.
  - rewrite Hk. intros H. apply mem_string_In in H. discriminate H.
Qed.

Lemma zip_rows (a b : frame) (n : nat) :
  columns a = columns b ->
  Forall (fun c => List.length (snd c) = n) a ->
  Forall (fun c => List.length (snd c) = 1) b ->
  let z := map (fun ab : (string * list cell) * (string * list cell) =>
                  (fst (fst ab), snd (fst ab) ++ snd (snd ab)))
               (combine a b) in
  columns z = columns a /\
  Forall (fun c => List.length (snd c) = n + 1) z.
Proof.
  revert b. induction a as [|c a IH]; intros [|c' b] Hc Ha Hb;
    try discriminate; [split; constructor|].
  simpl in Hc. injection Hc as Hc1 Hc2.
  inversion Ha; subst. inversion Hb; subst.
  destruct (IH b Hc2) as [IH1 IH2]; try assumption.
  split.
  - simpl. f_equal. exact IH1.
  - constructor; [|exact IH2]. simpl. rewrite length_app. lia.
Qed.

Lemma mean_row_one_cell d :
  Forall (fun c => List.length (snd c) = 1) (mean_row d).
Proof. unfold mean_row. apply Forall_map, Forall_forall. reflexivity. Qed.

(** Appending a summary row to a report. *)
Lemma concat_report (names : list string) f d (m : string) :
  report_of names f ->
  keys d = cv_keys eval_metrics ->
  exists f', Pandas2.concat f (("classifier_name", [Str m]) :: mean_row d)
             = Ok f' /\
             report_of (names ++ [m]) f'.
Proof.
  intros [rest [-> [Hc Hl]]] Hk.
  assert (Hcols : columns rest = columns (mean_row d))
    by (now rewrite columns_mean_row, Hk).
  unfold Pandas2.concat.
  replace (columns (("classifier_name", [Str m]) :: mean_row d))
    with (columns (("classifier_name", map Str names) :: rest))
    by (simpl; now rewrite Hcols).
  rewrite string_list_eqb_refl. eexists. split; [reflexivity|].
  destruct (zip_rows rest (mean_row d) (List.length names) Hcols Hl
                     (mean_row_one_cell d)) as [Z1 Z2].
  eexists. split; [|split].
  - cbn [combine map fst snd]. rewrite map_app. reflexivity.
  - now rewrite Z1.
  - rewrite length_app. exact Z2.
Qed.

Lemma loop_body_report w (verbose : bool) (ms : list (string * classifier))
    (pre : column_transformer) (X_train y_train : frame) (n_cv_folds : Z)
    (names : list string) (m : string) f :
  cross_validate_contract w ->
  (exists c, lookup_model m ms = Ok c) ->
  report_of names f ->
  exists t f',
    main_loop_body w verbose ms pre X_train y_train n_cv_folds m f
    = (t, Done f') /\
    reports t = [] /\
    report_of (names ++ [m]) f'.
Proof.
  intros Hcv [c Hc] Hf.
  destruct (Hcv (Piped pre c) X_train y_train eval_metrics n_cv_folds)
    as [d [Hd [Hk Hlen]]].
  destruct (concat_report names f d m Hf Hk) as [f' [Hcat Hf']].
  destruct verbose;
    (eexists; exists f'; split;
     [ unfold main_loop_body;
       eapply bind_done; [reflexivity|]; cbv beta;
       eapply bind_done; [rewrite Hc; reflexivity|]; cbv beta;
       eapply bind_done;
         [unfold run_cross_validate; rewrite Hd; reflexivity|]; cbv beta;
       eapply bind_done;
         [rewrite (summarize_cross_validate d m Hk Hlen); reflexivity|];
       cbv beta; rewrite Hcat; reflexivity
     | split; [reflexivity|exact Hf'] ]).
Qed.

Lemma reports_app (t1 t2 : list event) :
  reports (t1 ++ t2) = reports t1 ++ reports t2.
Proof. unfold reports. apply flat_map_app. Qed.

Lemma for_each_report w (verbose : bool) (ms : list (string * classifier))
    (pre : column_transformer) (X_train y_train : frame) (n_cv_folds : Z)
    (todo names : list string) f :
  cross_validate_contract w ->
  Forall (fun m => exists c, lookup_model m ms = Ok c) todo ->
  report_of names f ->
  exists t f',
    IO.for_each todo
      (main_loop_body w verbose ms pre X_train y_train n_cv_folds) f
    = (t, Done f') /\
    reports t = [] /\
    report_of (names ++ todo) f'.
Proof.
  intros Hcv Hall. revert names f.
  induction todo as [|m todo IH]; intros names f Hf.
  - exists [], f. rewrite app_nil_r. auto.
  - inversion Hall as [|? ? Hm Hrest]; subst.
    destruct (loop_body_report w verbose ms pre X_train y_train n_cv_folds
                names m f Hcv Hm Hf) as [t1 [f1 [E1 [R1 F1]]]].
    destruct (IH Hrest (names ++ [m]) f1 F1) as [t2 [f2 [E2 [R2 F2]]]].
    exists (t1 ++ t2), f2. cbn [IO.for_each]. rewrite E1.
    unfold IO.bind. rewrite E2. split; [reflexivity|].
    split; [now rewrite reports_app, R1, R2|].
    now rewrite <- app_assoc in F2.
Qed.

Lemma column_present f (k : string) :
  Pandas.has_label k f = true -> exists cs, Pandas2.column f k = Ok cs.
Proof.
  intros H. apply has_label_In, take_nonempty in H.
  unfold Pandas2.column. destruct (Pandas.take k f); [congruence|eauto].
Qed.

Lemma main_run w (train_data_file report_file : string)
    (n_cv_folds chosen_seed verbose : pyval) (seed folds : Z)
    (train_df : frame) :
  int_value w chosen_seed 1 = Some seed ->
  int_value w n_cv_folds 5 = Some folds ->
  read_csv w train_data_file = Ok train_df ->
  Pandas.has_label "is_canceled" train_df = true ->
  cross_validate_contract w ->
  (forall f, to_csv w report_file f = Ok tt) ->
  exists t f,
    main w train_data_file report_file n_cv_folds chosen_seed verbose
    = (t, Done tt) /\
    reports t = [(report_file, f)] /\
    report_of ("Dummy Classifier" :: keys (models seed)) f.
Proof.
  intros Hseed Hfolds Hread Hlabel Hcv Hcsv.
  destruct (column_present train_df "is_canceled" Hlabel) as [y_train Hy].
  assert (Hdrop : exists X_train,
             Pandas2.drop train_df ["is_canceled"] = Ok X_train).
  { unfold Pandas2.drop. cbn [forallb]. rewrite Hlabel. eauto. }
  destruct Hdrop as [X_train HX].
  destruct (Hcv (Bare (DummyClassifier "stratified" seed)) X_train y_train
                eval_metrics folds) as [d [Hd [Hk Hlen]]].
  assert (Hfirst : report_of ["Dummy Classifier"]
                     (("classifier_name", [Str "Dummy Classifier"])
                      :: mean_row d)).
  { exists (mean_row d). split; [reflexivity|]. split.
    - now rewrite columns_mean_row, Hk.
    - apply mean_row_one_cell. }
  assert (Hmodels : Forall (fun m => exists c,
                                lookup_model m (models seed) = Ok c)
                            (keys (models seed)))
    by (repeat constructor; eexists; reflexivity).
  destruct (for_each_report w (verbose_flag verbose) (models seed)
              preprocessor X_train y_train folds (keys (models seed))
              ["Dummy Classifier"] _ Hcv Hmodels Hfirst)
    as [tl [f [El [Rl Fl]]]].
  unfold main.
  rewrite (int_option_value w chosen_seed _ _ _ _ Hseed), bind_ret.
  rewrite (int_option_value w n_cv_folds _ _ _ _ Hfolds), bind_ret.
  destruct (verbose_flag verbose);
    (eexists; exists f; split;
     [ eapply bind_done; [reflexivity|]; cbv beta;
       eapply bind_done; [rewrite Hread; reflexivity|]; cbv beta;
       eapply bind_done; [reflexivity|]; cbv beta;
       eapply bind_done; [rewrite HX; reflexivity|]; cbv beta;
       eapply bind_done; [rewrite Hy; reflexivity|]; cbv beta;
       eapply bind_done; [reflexivity|]; cbv beta;
       eapply bind_done;
         [unfold run_cross_validate; rewrite Hd; reflexivity|]; cbv beta;
       eapply bind_done;
         [rewrite (summarize_cross_validate d _ Hk Hlen); reflexivity|];
       cbv beta;
       eapply bind_done; [exact El|]; cbv beta;
       eapply bind_done; [reflexivity|]; cbv beta;
       eapply bind_done; [reflexivity|]; cbv beta;
       eapply bind_done; [rewrite Hcsv; reflexivity|]; cbv beta;
       reflexivity
     | split; [|exact Fl];
       rewrite ?reports_app, Rl; reflexivity ]).
Qed.

(** C4: when the options are accepted, the data file has its label column
    and every cross-validation returns, whatever it returns and however
    long it took, the run writes one report; its name column lists the
    baseline first and then the five models in the order [models] gives
    them, and every column has six cells. *)
Theorem main_report_order w (train_data_file report_file : string)
    (n_cv_folds chosen_seed verbose : pyval) (seed folds : Z)
    (train_df : frame) :
  int_value w chosen_seed 1 = Some seed ->
  int_value w n_cv_folds 5 = Some folds ->
  read_csv w train_data_file = Ok train_df ->
  Pandas.has_label "is_canceled" train_df = true ->
  cross_validate_contract w ->
  (forall f, to_csv w report_file f = Ok tt) ->
  exists f rest,
    IO.ending (main w train_data_file report_file n_cv_folds chosen_seed
                    verbose) = Done tt /\
    reports (IO.trace (main w train_data_file report_file n_cv_folds
                            chosen_seed verbose)) = [(report_file, f)] /\
    f = ("classifier_name",
         [ Str "Dummy Classifier"; Str "Decision Tree";
           Str "k_Nearest_Neighbor"; Str "SVC (RBF kernel)";
           Str "Logistic Regression"; Str "Random Forest" ]) :: rest /\
    columns rest
    = [ "fit_time"; "score_time"; "validation_f1"; "train_f1";
        "validation_precision"; "train_precision";
        "validation_recall"; "train_recall";
        "validation_accuracy"; "train_accuracy" ] /\
    Forall (fun c => List.length (snd c) = 6) rest /\
    n_rows f = 6.
Proof.
  intros Hseed Hfolds Hread Hlabel Hcv Hcsv.
  destruct (main_run w train_data_file report_file n_cv_folds chosen_seed
              verbose seed folds train_df Hseed Hfolds Hread Hlabel Hcv Hcsv)
    as [t [f [E [R [rest [-> [Hc Hl]]]]]]].
  exists (("classifier_name",
           map Str ("Dummy Classifier" :: keys (models seed))) :: rest), rest.
  rewrite E. repeat split; assumption.
Qed.

Lemma main_report_order_witness :
  exists f rest,
    IO.ending (main sample_world "train.csv" "report.csv" (PStr "10") PNone
                    (PStr "True")) = Done tt /\
    reports (IO.trace (main sample_world "train.csv" "report.csv"
                            (PStr "10") PNone (PStr "True")))
    = [("report.csv", f)] /\
    f = ("classifier_name",
         [ Str "Dummy Classifier"; Str "Decision Tree";
           Str "k_Nearest_Neighbor"; Str "SVC (RBF kernel)";
           Str "Logistic Regression"; Str "Random Forest" ]) :: rest /\
    columns rest
    = [ "fit_time"; "score_time"; "validation_f1"; "train_f1";
        "validation_precision"; "train_precision";
        "validation_recall"; "train_recall";
        "validation_accuracy"; "train_accuracy" ] /\
    Forall (fun c => List.length (snd c) = 6) rest /\
    n_rows f = 6.
Proof.
  apply (main_report_order sample_world "train.csv" "report.csv"
           (PStr "10") PNone (PStr "True") 1%Z 10%Z
           [ ("is_canceled", [Num 0; Num 1; Num 0; Num 1]);
             ("lead_time", [Num 3; Num 4; Num 5; Num 6]) ]).
  - reflexivity.
  - reflexivity.
  - reflexivity.
  - reflexivity.
  - intros e X y scoring cv. exists (sample_scores scoring).
    split; [reflexivity|]. split.
    + unfold sample_scores, keys. rewrite map_map. apply map_id.
    + unfold sample_scores. destruct (cv_keys scoring) as [|k ks] eqn:E;
        [reflexivity|].
      cbn [map Pandas.same_length]. apply forallb_forall.
      intros kv Hin. apply in_map_iff in Hin as [k' [<- _]]. reflexivity.
  - reflexivity.
Defined.

End Report.

(** ** More on [summarize_cv_scores]: errors, edges and the exact row *)

Section SummaryEdges.

Implicit Types (X : cv_dict) (k name : string).

Lemma same_length_head X (k0 : string) (v0 : list Q) :
  Pandas.same_length ((k0, v0) :: X) = true ->
  forall k v, In (k, v) ((k0, v0) :: X) -> List.length v = List.length v0.
Proof.
  cbn [Pandas.same_length]. rewrite forallb_forall. intros H k v [E|Hin].
  - now inversion E.
  - apply Nat.eqb_eq. exact (H (k, v) Hin).
Qed.

(** X3: sequences of different lengths are refused with [ValueError],
    wherever they stand in the dict and whatever the keys. *)
Theorem summarize_cv_scores_ragged X name (k1 k2 : string) (v1 v2 : list Q) :
  In (k1, v1) X -> In (k2, v2) X -> List.length v1 <> List.length v2 ->
  summarize_cv_scores X name = Raise ValueError.
Proof.
  intros H1 H2 Hne. unfold summarize_cv_scores, Pandas.DataFrame.
  destruct (Pandas.same_length X) eqn:E; [|reflexivity].
  exfalso. destruct X as [|[k0 v0] X]; [destruct H1|].
  apply Hne.
  rewrite (same_length_head X k0 v0 E k1 v1 H1).
  now rewrite (same_length_head X k0 v0 E k2 v2 H2).
Qed.

Lemma summarize_cv_scores_ragged_witness :
  summarize_cv_scores ragged_scores "m" = Raise ValueError.
Proof.
  apply (summarize_cv_scores_ragged ragged_scores "m"
           "test_f1" "train_f1" [1#2; 1#2]%Q [1]%Q).
  - left. reflexivity.
  - right. left. reflexivity.
  - discriminate.
Defined.

Lemma In_name_row X name (c : string * list cell) :
  X <> [] ->
  In c (Pandas.setitem (mean_row X) "classifier_name" (Str name)) ->
  c = ("classifier_name", [Str name]) \/
  (In c (mean_row X) /\ fst c <> "classifier_name").
Proof.
  intros Hne H. apply In_setitem in H.
  now rewrite (n_rows_mean_row X Hne) in H.
Qed.

(** X2: on every non-empty dict of sequences of one length the call
    returns, also when renamed keys clash or a key is the name column's
    label (the selection of line 73 never misses a label).  The row starts
    with the name column, every column has exactly one cell, and every
    column labelled classifier_name holds the model name. *)
Theorem summarize_cv_scores_returns_one_row X name (n : nat) :
  X <> [] ->
  Forall (fun kv => List.length (snd kv) = n) X ->
  exists rest,
    summarize_cv_scores X name
    = Ok (("classifier_name", [Str name]) :: rest) /\
    Forall (fun c => List.length (snd c) = 1) rest /\
    (forall cells, In ("classifier_name", cells) rest -> cells = [Str name]).
Proof.
  intros Hne Hall.
  rewrite (summarize_cv_scores_value X name Hne
             (same_length_of_Forall X n Hall)).
  set (F := Pandas.setitem (mean_row X) "classifier_name" (Str name)).
  assert (HF : forall c, In c F ->
                 List.length (snd c) = 1 /\
                 (fst c = "classifier_name" -> snd c = [Str name])).
  { intros c Hc. apply (In_name_row X name c Hne) in Hc as [->|[Hc Hk]].
    - split; reflexivity.
    - split; [|contradiction].
      pose proof (mean_row_one_cell X) as H1. rewrite Forall_forall in H1.
      exact (H1 c Hc). }
  cbn [flat_map].
  destruct (Pandas.take "classifier_name" F) as [|c cs] eqn:E.
  { exfalso. apply (take_nonempty "classifier_name" F); [|exact E].
    apply In_columns_setitem. now left. }
  assert (Hc : In c (Pandas.take "classifier_name" F))
    by (rewrite E; now left).
  apply In_take in Hc as [Hc Hk].
  destruct (HF c Hc) as [_ Hname]. specialize (Hname Hk).
  destruct c as [k cells]. cbn [fst snd] in Hk, Hname. subst k cells.
  assert (Hrest : forall c', In c' (cs ++ flat_map
                     (fun k => Pandas.take k F) (map rename (keys X))) ->
                   In c' F).
  { intros c' Hin. apply in_app_or in Hin as [Hin|Hin].
    - assert (H' : In c' (Pandas.take "classifier_name" F))
        by (rewrite E; now right).
      now apply In_take in H'.
    - apply in_flat_map in Hin as [k' [_ Hin]]. now apply In_take in Hin. }
  eexists. split; [reflexivity|]. split.
  - apply Forall_forall. intros c' Hin. exact (proj1 (HF c' (Hrest c' Hin))).
  - intros cells Hin.
    exact (proj2 (HF _ (Hrest _ Hin)) eq_refl).
Qed.

Lemma summarize_cv_scores_returns_one_row_witness :
  exists rest,
    summarize_cv_scores clash_scores "m"
    = Ok (("classifier_name", [Str "m"]) :: rest) /\
    Forall (fun c => List.length (snd c) = 1) rest /\
    (forall cells, In ("classifier_name", cells) rest -> cells = [Str "m"]).
Proof.
  apply (summarize_cv_scores_returns_one_row clash_scores "m" 2).
  - discriminate.
  - repeat constructor.
Defined.



(** X4: a key that is the name column's label loses its mean: the row
    has the label at least twice, and each time with the model name. *)
Theorem summarize_cv_scores_name_key X name (n : nat) :
  Forall (fun kv => List.length (snd kv) = n) X ->
  In "classifier_name" (keys X) ->
  exists row,
    summarize_cv_scores X name = Ok row /\
    2 <= List.length (Pandas.take "classifier_name" row) /\
    (forall c, In c (Pandas.take "classifier_name" row) ->
       c = ("classifier_name", [Str name])).
Proof.
  intros Hall Hkey.
  assert (Hne : X <> []) by (intros ->; destruct Hkey).
  destruct (summarize_cv_scores_returns_one_row X name n Hne Hall)
    as [rest [E [_ Hname]]].
  exists (("classifier_name", [Str name]) :: rest). split; [exact E|].
  rewrite (summarize_cv_scores_value X name Hne
             (same_length_of_Forall X n Hall)) in E.
  injection E as E. cbn [flat_map] in E.
  set (F := Pandas.setitem (mean_row X) "classifier_name" (Str name)) in *.
  split.
  - unfold Pandas.take at 1. cbn [List.filter fst]. rewrite String.eqb_refl.
    cbn [List.length]. apply le_n_S.
    fold (Pandas.take "classifier_name" rest).
    destruct (Pandas.take "classifier_name" rest) as [|c cs] eqn:Et;
      [|cbn; lia].
    exfalso.
    assert (Hin : In ("classifier_name", [Str name]) rest).
    { destruct (Pandas.take "classifier_name" F) as [|c cs] eqn:EF.
      - exfalso. apply (take_nonempty "classifier_name" F); [|exact EF].
        apply In_columns_setitem. now left.
      - cbn [app] in E. injection E as Ec Erest. rewrite <- Erest.
        apply in_or_app. right. apply in_flat_map.
        exists "classifier_name". split.
        + unfold keys in *. apply in_map_iff in Hkey as [kv [Hk Hin]].
          apply in_map_iff. exists (fst kv). split.
          * rewrite Hk. reflexivity.
          * now apply in_map.
        + rewrite EF, Ec. now left. }
    assert (Hin' : In ("classifier_name", [Str name])
                      (Pandas.take "classifier_name" rest))
      by (apply In_take; auto).
    rewrite Et in Hin'. exact Hin'.
  - intros c Hc. apply In_take in Hc as [[<-|Hc] Hk]; [reflexivity|].
    destruct c as [k cells]. cbn [fst] in Hk. subst k.
    now rewrite (Hname cells Hc).
Qed.

Lemma summarize_cv_scores_name_key_witness :
  exists row,
    summarize_cv_scores named_scores "m" = Ok row /\
    2 <= List.length (Pandas.take "classifier_name" row) /\
    (forall c, In c (Pandas.take "classifier_name" row) ->
       c = ("classifier_name", [Str "m"])).
Proof.
  apply (summarize_cv_scores_name_key named_scores "m" 2).
  - repeat constructor.
  - left. reflexivity.
Defined.

(** X5: with no fold at all (every sequence empty) the call still
    returns one row, and every metric column holds NaN. *)
Theorem summarize_cv_scores_no_fold X name :
  X <> [] ->
  Forall (fun kv => snd kv = []) X ->
  exists row,
    summarize_cv_scores X name = Ok row /\
    (forall c cells, In (c, cells) row -> c <> "classifier_name" ->
       cells = [NaN]).
Proof.
  intros Hne Hall.
  assert (Hlen : Forall (fun kv => List.length (snd kv) = 0) X).
  { apply Forall_forall. intros kv Hin. rewrite Forall_forall in Hall.
    now rewrite (Hall kv Hin). }
  eexists. split.
  { apply summarize_cv_scores_value;
      [exact Hne | exact (same_length_of_Forall X 0 Hlen)]. }
  intros c cells Hin Hc.
  apply in_flat_map in Hin as [k' [_ Hin]].
  apply In_take in Hin as [Hin _].
  apply (In_name_row X name _ Hne) in Hin as [Hin|[Hin _]].
  - inversion Hin. congruence.
  - apply In_mean_row in Hin as [k [v [Hin E]]].
    rewrite Forall_forall in Hall. specialize (Hall (k, v) Hin).
    cbn [snd] in Hall. subst v. now inversion E.
Qed.

Lemma summarize_cv_scores_no_fold_witness :
  exists row,
    summarize_cv_scores no_fold_scores "m" = Ok row /\
    (forall c cells, In (c, cells) row -> c <> "classifier_name" ->
       cells = [NaN]).
Proof.
  apply (summarize_cv_scores_no_fold no_fold_scores "m").
  - discriminate.
  - repeat constructor.
Defined.

End SummaryEdges.

(** ** Scorer names that the renaming leaves alone *)

Section CleanNames.

Implicit Types (m : string) (scoring : list string).

Lemma rename_train_key m :
  Str.contains "test_" m = false ->
  rename ("train_" ++ m) = ("train_" ++ m)%string.
Proof.
  intros H. apply rename_no_occurrence.
  cbn -[Str.contains]. cbn [Str.contains].
  destruct m as [|c m]; cbn in *; exact H.
Qed.

Lemma rename_test_key m :
  Str.contains "test_" m = false ->
  rename ("test_" ++ m) = ("validation_" ++ m)%string.
Proof.
  intros H. rewrite rename_test_prefix. now rewrite rename_no_occurrence.
Qed.

Lemma rename_cv_keys scoring :
  Forall (fun m => Str.contains "test_" m = false) scoring ->
  "classifier_name" :: map rename (cv_keys scoring) = summary_labels scoring.
Proof.
  intros H. unfold summary_labels, cv_keys. cbn [map]. do 3 f_equal.
  induction H as [|m scoring Hm _ IH]; [reflexivity|].
  cbn [flat_map map app].
  now rewrite (rename_test_key m Hm), (rename_train_key m Hm), IH.
Qed.

Lemma append_cancel (p a b : string) : (p ++ a = p ++ b)%string -> a = b.
Proof.
  induction p as [|c p IH]; intros H; [exact H|].
  cbn in H. injection H as H. now apply IH.
Qed.

Lemma In_pair_labels m scoring :
  In m (flat_map (fun m' => [("validation_" ++ m')%string;
                             ("train_" ++ m')%string]) scoring) ->
  exists m', In m' scoring /\
             (m = ("validation_" ++ m')%string \/
              m = ("train_" ++ m')%string).
Proof.
  intros H. apply in_flat_map in H as [m' [H1 [H2|[H2|[]]]]]; eauto.
Qed.

Lemma NoDup_summary_labels scoring :
  NoDup scoring -> NoDup (summary_labels scoring).
Proof.
  intros Hnd. unfold summary_labels.
  assert (Hpairs : NoDup (flat_map
            (fun m => [("validation_" ++ m)%string; ("train_" ++ m)%string])
            scoring)).
  { induction Hnd as [|m scoring Hm _ IH]; [constructor|].
    cbn [flat_map app]. constructor; [|constructor; [|exact IH]].
    - intros [H|H]; [discriminate H|].
      apply In_pair_labels in H as [m' [Hin [E|E]]]; [|discriminate E].
      apply append_cancel in E. now subst.
    - intros H.
      apply In_pair_labels in H as [m' [Hin [E|E]]]; [discriminate E|].
      apply append_cancel in E. now subst. }
  constructor; [|constructor; [|constructor; [|exact Hpairs]]].
  - intros [H|[H|H]]; try discriminate H.
    apply In_pair_labels in H as [m' [_ [E|E]]]; discriminate E.
  - intros [H|H]; [discriminate H|].
    apply In_pair_labels in H as [m' [_ [E|E]]]; discriminate E.
  - intros H.
    apply In_pair_labels in H as [m' [_ [E|E]]]; discriminate E.
Qed.

Lemma substring_all (s : string) : String.substring 0 (String.length s) s = s.
Proof. induction s as [|c s IH]; [reflexivity|]. cbn. now rewrite IH. Qed.

Lemma rename_prefix_test_key (m : string) :
  rename_prefix ("test_" ++ m) = ("validation_" ++ m)%string.
Proof.
  unfold rename_prefix, Str.startswith.
  change ("test_" ++ m)%string
    with (String "t" (String "e" (String "s" (String "t" (String "_" m))))).
  cbn [String.prefix String.length String.substring Nat.sub Ascii.ascii_dec
       ascii_rec ascii_rect Bool.bool_dec bool_rec bool_rect sumbool_rec
       sumbool_rect].
  rewrite Nat.sub_0_r, substring_all. now destruct m.
Qed.

(** The renaming of the prefix alone, the one the comment of line 63
    describes, never makes two keys of a [cross_validate] dict clash: its
    labels are those of [summary_labels] whatever the scorer names are. *)
Lemma rename_prefix_cv_keys scoring :
  "classifier_name" :: map rename_prefix (cv_keys scoring)
  = summary_labels scoring.
Proof.
  unfold summary_labels, cv_keys. cbn [map]. do 3 f_equal.
  induction scoring as [|m scoring IH]; [reflexivity|].
  cbn [flat_map map app]. now rewrite rename_prefix_test_key, IH.
Qed.

Lemma NoDup_rename_prefix_cv_keys scoring :
  NoDup scoring -> NoDup (map rename_prefix (cv_keys scoring)).
Proof.
  intros Hnd. apply NoDup_summary_labels in Hnd.
  rewrite <- rename_prefix_cv_keys in Hnd. now inversion Hnd.
Qed.

(** X6: for the dict [cross_validate] returns under pairwise distinct
    scorer names in which test_ does not occur, the renaming touches the
    prefix only: the labels of the row are the name column, the two timing
    columns, and for each scorer in turn its validation_ and train_
    column. *)
Theorem summarize_cv_scores_clean_names (d : cv_dict) scoring
    (name : string) :
  keys d = cv_keys scoring ->
  Pandas.same_length d = true ->
  NoDup scoring ->
  Forall (fun m => Str.contains "test_" m = false) scoring ->
  exists row,
    summarize_cv_scores d name = Ok row /\
    columns row = summary_labels scoring.
Proof.
  intros Hk Hlen Hnd Hclean.
  pose proof (rename_cv_keys scoring Hclean) as Hlabels.
  pose proof (NoDup_summary_labels scoring Hnd) as Hnodup.
  rewrite <- Hlabels, <- Hk in Hnodup.
  exists (("classifier_name", [Str name]) :: mean_row d). split.
  - apply summarize_cv_scores_row; try assumption.
    + intros ->. discriminate Hk.
    + now inversion Hnodup.
    + rewrite Hk. unfold cv_keys. intros [H|[H|H]]; try discriminate H.
      apply in_flat_map in H as [m' [_ [H|[H|[]]]]]; discriminate H.
  - cbn [columns map fst]. fold (columns (mean_row d)).
    now rewrite columns_mean_row, Hk.
Qed.

Lemma summarize_cv_scores_clean_names_witness :
  exists row,
    summarize_cv_scores (sample_scores eval_metrics) "m" = Ok row /\
    columns row = summary_labels eval_metrics.
Proof.
  apply (summarize_cv_scores_clean_names (sample_scores eval_metrics)
           eval_metrics "m").
  - reflexivity.
  - reflexivity.
  - apply nodupb_NoDup. reflexivity.
  - repeat constructor.
Defined.

End CleanNames.

(** ** The store: the result is a new object *)

Section StoreResult.

(** X7: when the dict at [X] can be read, the call over the store ends as
    the function on values does; the row it returns is an object that was
    not in the store before, so it is neither the argument nor an alias
    of anything the caller holds. *)
Theorem summarize_cv_scores_new_object (X : Store.loc) (name : string)
    (h : Store.heap) (d : cv_dict) :
  fst (Store.read_dict X h) = Ok d ->
  match summarize_cv_scores d name with
  | Ok row =>
      exists l, fst (Store.summarize_cv_scores X name h) = Ok l /\
                h !! l = None /\ l <> X /\
                snd (Store.summarize_cv_scores X name h) !! l
                = Some (Store.OFrame row)
  | Raise e => fst (Store.summarize_cv_scores X name h) = Raise e
  end.
Proof.
  intros Hd. destruct (summarize_cv_scores_run X name h) as [_ H].
  rewrite Hd in H.
  destruct (summarize_cv_scores d name) as [row|e]; [|exact H].
  destruct H as [l [H1 [H2 H3]]]. exists l. repeat split; try assumption.
  intros ->. unfold Store.read_dict in Hd. rewrite H2 in Hd. discriminate.
Qed.

Lemma summarize_cv_scores_new_object_witness :
  match summarize_cv_scores
          [("test_f1", [1#2; 1#4]%Q); ("train_f1", [1; 1]%Q)] "m" with
  | Ok row =>
      exists l, fst (Store.summarize_cv_scores 0 "m" Store.sample_heap)
                = Ok l /\
                Store.sample_heap !! l = None /\ l <> 0 /\
                snd (Store.summarize_cv_scores 0 "m" Store.sample_heap) !! l
                = Some (Store.OFrame row)
  | Raise e => fst (Store.summarize_cv_scores 0 "m" Store.sample_heap)
               = Raise e
  end.
Proof.
  apply (summarize_cv_scores_new_object 0 "m" Store.sample_heap).
  vm_compute. reflexivity.
Defined.

End StoreResult.

(** ** The self test *)

Section SelfTest.

(** X8: the self test of helper_functions.py passes: none of its four
    assertions fails and both messages are printed. *)
Theorem helper_main_passes :
  HelperFunctions.main
  = ([ EPrint "Successfully tested summarize_cv_scores function!";
       EPrint "Successfully tested get_hyperparameter_grid function!" ],
     Done tt).
Proof. vm_compute. reflexivity. Qed.

Lemma getitem_same_columns (f g : frame) (labels : list string) :
  (forall k, In k labels -> Pandas.take k f = Pandas.take k g) ->
  Pandas.getitem f labels = Pandas.getitem g labels.
Proof.
  induction labels as [|k labels IH]; intros H; [reflexivity|].
  cbn [Pandas.getitem]. rewrite (H k (or_introl eq_refl)).
  rewrite IH by (intros; apply H; now right). reflexivity.
Qed.

(** X9: the check of the self test looks at the thirteen compared columns
    only: a summary that has them as the toy summary has is accepted with
    all thirteen cells matching, whatever its timing columns or any other
    column hold. *)
Theorem helper_check_ignores_other_columns (f : frame) :
  (forall k, In k HelperFunctions.compared_columns ->
     Pandas.take k f = Pandas.take k toy_row) ->
  HelperFunctions.matching_cells f = Ok 13.
Proof.
  intros H. unfold HelperFunctions.matching_cells.
  rewrite (getitem_same_columns f toy_row _ H). vm_compute. reflexivity.
Qed.

Lemma helper_check_ignores_other_columns_witness :
  HelperFunctions.matching_cells
    (("fit_time", [NaN]) :: ("extra", [Str "x"; Str "y"]) :: expected)
  = Ok 13.
Proof.
  apply (helper_check_ignores_other_columns
           (("fit_time", [NaN]) :: ("extra", [Str "x"; Str "y"])
            :: expected)).
  intros k Hk.
  repeat (destruct Hk as [<-|Hk]; [vm_compute; reflexivity|]).
  destruct Hk.
Defined.

End SelfTest.

(** ** Every run of [main]: what is evaluated, and when a report is
    written *)

Section Runs.

Implicit Types (w : world) (t : list event).

Lemma bind_stop {A B : Type} (m : IO.io A) (k : A -> IO.io B) t (s : stop) :
  m = (t, Stopped s) -> IO.bind m k = (t, Stopped s).
Proof. now intros ->. Qed.

Lemma when_print (b : bool) (s : string) :
  IO.when b (IO.print s) = (if b then [EPrint s] else [], Done tt).
Proof. now destruct b. Qed.

Lemma evaluations_app t1 t2 :
  evaluations (t1 ++ t2) = evaluations t1 ++ evaluations t2.
Proof. apply flat_map_app. Qed.

Lemma messages_app t1 t2 : messages (t1 ++ t2) = messages t1 ++ messages t2.
Proof. apply flat_map_app. Qed.

Lemma evaluations_said (b : bool) (s : string) :
  evaluations (if b then [EPrint s] else []) = [].
Proof. now destruct b. Qed.

Lemma reports_said (b : bool) (s : string) :
  reports (if b then [EPrint s] else []) = [].
Proof. now destruct b. Qed.

(** One turn of the loop emits its events whatever the world answers. *)
Lemma loop_body_trace w (verbose : bool) (ms : list (string * classifier))
    (pre : column_transformer) (X_train y_train : frame) (folds : Z)
    (m : string) (f : frame) :
  IO.trace (main_loop_body w verbose ms pre X_train y_train folds m f)
  = turn_events verbose ms pre folds m.
Proof.
  unfold main_loop_body, turn_events, run_cross_validate.
  rewrite when_print.
  destruct (lookup_model m ms) as [c|e];
    [|destruct verbose; reflexivity].
  cbn -[summarize_cv_scores Pandas2.concat String.append].
  destruct (cross_validate w (Piped pre c) X_train y_train eval_metrics
                           folds) as [d|e];
    cbn -[summarize_cv_scores Pandas2.concat String.append];
    [|destruct verbose; reflexivity].
  destruct (summarize_cv_scores d m) as [row|e];
    cbn -[Pandas2.concat String.append]; [|destruct verbose; reflexivity].
  destruct (Pandas2.concat f row) as [f'|e]; destruct verbose; reflexivity.
Qed.

(** The loop runs some first turns, all of them when it completes. *)
Lemma for_each_trace w (verbose : bool) (ms : list (string * classifier))
    (pre : column_transformer) (X_train y_train : frame) (folds : Z)
    (todo : list string) (f : frame) :
  exists k,
    k <= List.length todo /\
    IO.trace (IO.for_each todo
                (main_loop_body w verbose ms pre X_train y_train folds) f)
    = flat_map (turn_events verbose ms pre folds) (firstn k todo) /\
    (forall f', IO.ending (IO.for_each todo
                  (main_loop_body w verbose ms pre X_train y_train folds) f)
                = Done f' -> k = List.length todo).
Proof.
  revert f. induction todo as [|m todo IH]; intros f.
  - exists 0. repeat split; auto.
  - cbn [IO.for_each].
    pose proof (loop_body_trace w verbose ms pre X_train y_train folds m f)
      as Hb.
    destruct (main_loop_body w verbose ms pre X_train y_train folds m f)
      as [tb [f1|s]]; cbn [IO.trace fst] in Hb; subst tb.
    + destruct (IH f1) as [k [Hk [Ht Hd]]].
      destruct (IO.for_each todo _ f1) as [tl o] eqn:El.
      cbn [IO.trace IO.ending fst snd] in Ht, Hd. subst tl.
      exists (S k). unfold IO.bind. rewrite El.
      cbn [IO.trace IO.ending fst snd firstn flat_map List.length].
      repeat split; [lia|].
      intros f' Hf'. f_equal. exact (Hd f' Hf').
    + exists 1. cbn [IO.bind IO.trace IO.ending fst snd firstn flat_map
                     List.length].
      repeat split; [lia|now rewrite app_nil_r|discriminate].
Qed.

Lemma turns_evaluations (verbose : bool) (seed folds : Z) (k : nat) :
  k <= 5 ->
  evaluations (flat_map (turn_events verbose (models seed) preprocessor
                                     folds)
                        (firstn k (keys (models seed))))
  = firstn k (List.tl (planned seed folds)) /\
  reports (flat_map (turn_events verbose (models seed) preprocessor folds)
                    (firstn k (keys (models seed)))) = [].
Proof.
  intros Hk.
  do 6 (destruct k as [|k]; [destruct verbose; split; reflexivity|]).
  lia.
Qed.

Ltac io_step :=
  eapply bind_done;
  [ first [ apply when_print
          | reflexivity
          | unfold run_cross_validate;
            match goal with
            | H : _ = _ |- _ => rewrite H; reflexivity
            end ]
  | cbv beta ].

Ltac io_stop :=
  first [ eapply bind_stop; unfold run_cross_validate;
          match goal with
          | H : _ = _ |- _ => rewrite H; reflexivity
          end
        | reflexivity ].

Ltac io_close :=
  split; [lia|]; split; [reflexivity|]; split; [left; reflexivity|];
  let H := fresh in intros H; discriminate H.

Ltac io_read :=
  cbn [IO.trace IO.ending fst snd];
  rewrite ?evaluations_app, ?reports_app, ?messages_app,
          ?evaluations_said, ?reports_said.

Lemma turns_messages (verbose : bool) (seed folds : Z) :
  messages (flat_map (turn_events verbose (models seed) preprocessor folds)
                     (keys (models seed)))
  = if verbose
    then [ "Evaluating Decision Tree"; "Evaluating k_Nearest_Neighbor";
           "Evaluating SVC (RBF kernel)"; "Evaluating Logistic Regression";
           "Evaluating Random Forest" ]
    else [].
Proof. destruct verbose; reflexivity. Qed.

(** The shapes a run can take once both options are accepted. *)
Lemma main_shape w (train_data_file report_file : string)
    (n_cv_folds chosen_seed verbose : pyval) (seed folds : Z) :
  int_value w chosen_seed 1 = Some seed ->
  int_value w n_cv_folds 5 = Some folds ->
  exists k t o,
    main w train_data_file report_file n_cv_folds chosen_seed verbose
    = (t, o) /\
    k <= 6 /\
    evaluations t = firstn k (planned seed folds) /\
    (reports t = [] \/
     k = 6 /\ exists f, reports t = [(report_file, f)]) /\
    (o = Done tt ->
     k = 6 /\ (exists f, reports t = [(report_file, f)]) /\
     messages t
     = (if verbose_flag verbose then said_on_the_way else [])
       ++ ["Report generated and saved..."]).
Proof.
  intros Hseed Hfolds. unfold main.
  rewrite (int_option_value w chosen_seed _ _ _ _ Hseed), bind_ret.
  rewrite (int_option_value w n_cv_folds _ _ _ _ Hfolds), bind_ret.
  generalize (verbose_flag verbose). intros b.
  destruct (read_csv w train_data_file) as [df|e] eqn:Hread.
  2: { exists 0. do 2 eexists. split; [io_step; io_stop|].
       io_read. io_close. }
  destruct (Pandas2.drop df ["is_canceled"]) as [X_train|e] eqn:Hdrop.
  2: { exists 0. do 2 eexists. split; [repeat io_step; io_stop|].
       io_read. io_close. }
  destruct (Pandas2.column df "is_canceled") as [y_train|e] eqn:Hcol.
  2: { exists 0. do 2 eexists. split; [repeat io_step; io_stop|].
       io_read. io_close. }
  destruct (cross_validate w (Bare (DummyClassifier "stratified" seed))
              X_train y_train eval_metrics folds) as [d|e] eqn:Hcv.
  2: { exists 1. do 2 eexists. split; [repeat io_step; io_stop|].
       io_read. io_close. }
  destruct (summarize_cv_scores d "Dummy Classifier") as [row|e] eqn:Hsum.
  2: { exists 1. do 2 eexists. split; [repeat io_step; io_stop|].
       io_read. io_close. }
  destruct (for_each_trace w b (models seed) preprocessor X_train y_train
              folds (keys (models seed)) row) as [k [Hk [Ht Hd]]].
  change (k <= 5) in Hk.
  destruct (turns_evaluations b seed folds k Hk) as [He Hr].
  pose proof (turns_messages b seed folds) as Hm.
  rewrite <- Ht in He, Hr.
  destruct (IO.for_each (keys (models seed))
              (main_loop_body w b (models seed) preprocessor X_train y_train
                              folds) row) as [tl [f|s]] eqn:El;
    cbn [IO.trace IO.ending fst snd] in He, Hr, Hd, Ht.
  2: { exists (S k). do 2 eexists. split; [repeat io_step; io_stop|].
       io_read. rewrite He, Hr. io_close. }
  specialize (Hd f eq_refl). change (k = 5) in Hd. subst k.
  change (firstn 5 (keys (models seed))) with (keys (models seed)) in Ht.
  rewrite <- Ht in Hm. clear Ht.
  exists 6.
  destruct (to_csv w report_file f) as [[]|e] eqn:Hcsv.
  2: { do 2 eexists. split; [repeat io_step; io_stop|].
       io_read. rewrite He, Hr.
       split; [lia|]. split; [reflexivity|].
       split; [right; split; [reflexivity|eexists; reflexivity]|].
       intros H; discriminate H. }
  do 2 eexists. split; [repeat io_step; io_stop|].
  io_read. rewrite He, Hr, Hm.
  split; [lia|]. split; [reflexivity|].
  split; [right; split; [reflexivity|eexists; reflexivity]|].
  intros _. split; [reflexivity|]. split; [eexists; reflexivity|].
  destruct b; reflexivity.
Qed.


(** X10: when both options are accepted, the calls of [cross_validate]
    a run makes are always the first [k] of the fixed plan: the baseline
    without preprocessor, then the five models behind it, each with the
    parsed seed and fold count.  A report is written at most once, and
    only after all six calls; a run that completes has made all six and
    has written it. *)
Theorem main_evaluates_in_order w (train_data_file report_file : string)
    (n_cv_folds chosen_seed verbose : pyval) (seed folds : Z) :
  int_value w chosen_seed 1 = Some seed ->
  int_value w n_cv_folds 5 = Some folds ->
  exists k t o,
    main w train_data_file report_file n_cv_folds chosen_seed verbose
    = (t, o) /\
    k <= 6 /\
    evaluations t = firstn k (planned seed folds) /\
    (reports t = [] \/
     k = 6 /\ exists f, reports t = [(report_file, f)]) /\
    (o = Done tt -> k = 6 /\ exists f, reports t = [(report_file, f)]).
Proof.
  intros Hseed Hfolds.
  destruct (main_shape w train_data_file report_file n_cv_folds chosen_seed
              verbose seed folds Hseed Hfolds)
    as (k & t & o & E & Hk & He & Hr & Hd).
  exists k, t, o. repeat split; try assumption; now apply Hd.
Qed.

Lemma main_evaluates_in_order_witness :
  exists k t o,
    main sample_world "train.csv" "report.csv" (PStr "10") PNone PNone
    = (t, o) /\
    k <= 6 /\
    evaluations t = firstn k (planned 1 10) /\
    (reports t = [] \/
     k = 6 /\ exists f, reports t = [("report.csv", f)]) /\
    (o = Done tt -> k = 6 /\ exists f, reports t = [("report.csv", f)]).
Proof.
  apply (main_evaluates_in_order sample_world "train.csv" "report.csv"
           (PStr "10") PNone PNone 1%Z 10%Z); reflexivity.
Defined.

Lemma int_option_cases w (v : pyval) (default : Z) (message : string)
    (code : Z) :
  (exists z, int_value w v default = Some z) \/
  (exists t c, int_option w v default message code
               = (t, Stopped (Exit c))).
Proof.
  unfold int_value, int_option.
  destruct v; try (left; eexists; reflexivity);
    destruct (py_int w _) as [z|[]]; try (left; eexists; reflexivity);
    right; do 2 eexists; reflexivity.
Qed.

(** X11: in every world, a run that completes has printed, in this
    order, the eight progress messages when the flag is on and none of
    them when it is off, and after them the closing message, which does
    not depend on the flag. *)
Theorem main_messages w (train_data_file report_file : string)
    (n_cv_folds chosen_seed verbose : pyval) :
  IO.ending (main w train_data_file report_file n_cv_folds chosen_seed
                  verbose) = Done tt ->
  messages (IO.trace (main w train_data_file report_file n_cv_folds
                           chosen_seed verbose))
  = (if verbose_flag verbose then said_on_the_way else [])
    ++ ["Report generated and saved..."].
Proof.
  intros Hdone.
  destruct (int_option_cases w chosen_seed 1
              "Value of chosen_seed should be int" (-2))
    as [[seed Hseed]|[t [c E]]].
  2: { unfold main in Hdone. rewrite E in Hdone. discriminate Hdone. }
  destruct (int_option_cases w n_cv_folds 5
              "Value of n_cv_folds should be int" (-3))
    as [[folds Hfolds]|[t [c E]]].
  2: { unfold main in Hdone.
       rewrite (int_option_value w chosen_seed _ _ _ _ Hseed), bind_ret
         in Hdone.
       rewrite E in Hdone. discriminate Hdone. }
  destruct (main_shape w train_data_file report_file n_cv_folds chosen_seed
              verbose seed folds Hseed Hfolds)
    as (k & t & o & E & _ & _ & _ & Hd).
  rewrite E in *. cbn [IO.ending IO.trace fst snd] in *.
  now apply Hd.
Qed.

Lemma main_messages_witness :
  messages (IO.trace (main sample_world "train.csv" "report.csv" PNone PNone
                           (PStr "True")))
  = said_on_the_way ++ ["Report generated and saved..."].
Proof.
  apply (main_messages sample_world "train.csv" "report.csv" PNone PNone
           (PStr "True")).
  vm_compute. reflexivity.
Defined.

Lemma drop_missing (df : frame) (k : string) :
  Pandas.has_label k df = false -> Pandas2.drop df [k] = Raise KeyError.
Proof. intros H. unfold Pandas2.drop. cbn [forallb]. now rewrite H. Qed.

(** X12: with both options accepted, a data file that cannot be read ends
    the run with the exception of the reader after the read attempt alone;
    a data file without the label column is_canceled ends it with
    [KeyError].  In both cases nothing is evaluated and no report is
    written. *)
Theorem main_input_errors w (train_data_file report_file : string)
    (n_cv_folds chosen_seed verbose : pyval) (seed folds : Z) :
  int_value w chosen_seed 1 = Some seed ->
  int_value w n_cv_folds 5 = Some folds ->
  (forall e, read_csv w train_data_file = Raise e ->
     main w train_data_file report_file n_cv_folds chosen_seed verbose
     = ([EReadCsv train_data_file], Stopped (Uncaught e))) /\
  (forall df, read_csv w train_data_file = Ok df ->
     Pandas.has_label "is_canceled" df = false ->
     main w train_data_file report_file n_cv_folds chosen_seed verbose
     = (EReadCsv train_data_file
        :: (if verbose_flag verbose
            then [EPrint "Training Data Imported..."] else []),
        Stopped (Uncaught KeyError))).
Proof.
  intros Hseed Hfolds. split.
  - intros e Hread. unfold main.
    rewrite (int_option_value w chosen_seed _ _ _ _ Hseed), bind_ret.
    rewrite (int_option_value w n_cv_folds _ _ _ _ Hfolds), bind_ret.
    rewrite Hread. reflexivity.
  - intros df Hread Hlabel. unfold main.
    rewrite (int_option_value w chosen_seed _ _ _ _ Hseed), bind_ret.
    rewrite (int_option_value w n_cv_folds _ _ _ _ Hfolds), bind_ret.
    rewrite Hread. pose proof (drop_missing df "is_canceled" Hlabel) as Hd.
    destruct (verbose_flag verbose); cbn [IO.when];
      (etransitivity; [repeat io_step; io_stop|reflexivity]).
Qed.

Lemma main_input_errors_witness :
  main (world_reading (Raise OSError)) "train.csv" "report.csv" PNone PNone
       PNone
  = ([EReadCsv "train.csv"], Stopped (Uncaught OSError)) /\
  main (world_reading (Ok [("lead_time", [Num 3; Num 4])])) "train.csv"
       "report.csv" PNone PNone (PStr "True")
  = ([EReadCsv "train.csv"; EPrint "Training Data Imported..."],
     Stopped (Uncaught KeyError)).
Proof.
  split.
  - destruct (main_input_errors (world_reading (Raise OSError)) "train.csv"
                "report.csv" PNone PNone PNone 1%Z 5%Z eq_refl eq_refl)
      as [H _].
    apply H. reflexivity.
  - destruct (main_input_errors
                (world_reading (Ok [("lead_time", [Num 3; Num 4])]))
                "train.csv" "report.csv" PNone PNone (PStr "True") 1%Z 5%Z
                eq_refl eq_refl) as [_ H].
    apply (H [("lead_time", [Num 3; Num 4])]); reflexivity.
Defined.

(** X13: an option value that [int] rejects with [TypeError] ends the
    run with code -99, for the seed and, when the seed is accepted, for
    the fold count alike; only the exception and its type are printed,
    and nothing is read. *)
Theorem main_option_type_error w (train_data_file report_file : string)
    (verbose : pyval) :
  (forall (n_cv_folds : pyval),
     main w train_data_file report_file n_cv_folds PObj verbose
     = ([EPrintExn TypeError; EPrintType TypeError], Stopped (Exit (-99)))) /\
  (forall (chosen_seed : pyval) (seed : Z),
     int_value w chosen_seed 1 = Some seed ->
     main w train_data_file report_file PObj chosen_seed verbose
     = ([EPrintExn TypeError; EPrintType TypeError], Stopped (Exit (-99)))).
Proof.
  split.
  - intros n_cv_folds. reflexivity.
  - intros chosen_seed seed Hseed. unfold main.
    rewrite (int_option_value w chosen_seed _ _ _ _ Hseed), bind_ret.
    reflexivity.
Qed.

Lemma main_option_type_error_witness :
  main sample_world "train.csv" "report.csv" PObj (PStr "3") PNone
  = ([EPrintExn TypeError; EPrintType TypeError], Stopped (Exit (-99))).
Proof.
  destruct (main_option_type_error sample_world "train.csv" "report.csv"
              PNone) as [_ H].
  apply (H (PStr "3") 3%Z). reflexivity.
Defined.

(** *** The report, cell by cell *)

Implicit Types (d : cv_dict) (rest f : frame).


Lemma nth_error_keys d (i : nat) (k : string) (v : list Q) :
  nth_error d i = Some (k, v) -> nth_error (keys d) i = Some k.
Proof. intros H. unfold keys. now rewrite nth_error_map, H. Qed.











Lemma bind_same {A B : Type} (m : IO.io A) (k1 k2 : A -> IO.io B) :
  (forall a, k1 a = k2 a) -> IO.bind m k1 = IO.bind m k2.
Proof.
  intros H. destruct m as [t [a|s]]; [|reflexivity].
  unfold IO.bind. now rewrite (H a).
Qed.

Lemma for_each_same {A S : Type} (l : list A)
    (body1 body2 : A -> S -> IO.io S) (s : S) :
  (forall a s, body1 a s = body2 a s) ->
  IO.for_each l body1 s = IO.for_each l body2 s.
Proof.
  intros H. revert s. induction l as [|a l IH]; intros s; [reflexivity|].
  cbn [IO.for_each]. rewrite (H a s). apply bind_same. exact IH.
Qed.

(** X15: the group declared as dropped is never dropped by [main].  The
    frame [main] hands to [cross_validate] is the data file without its
    label column: a run depends on [cross_validate] only through its
    answers on that frame and the label column.  Every other column of the
    data file is in that frame, the columns declared as dropped among
    them, and no pipeline of the preprocessor lists one of these, while
    the preprocessor lists every other declared feature, each once, and
    not the label. *)
Theorem main_keeps_dropped_features w
    (cv : estimator -> frame -> frame -> list string -> Z -> result cv_dict)
    (train_data_file report_file : string)
    (n_cv_folds chosen_seed verbose : pyval)
    (train_df X_train y_train : frame) :
  read_csv w train_data_file = Ok train_df ->
  Pandas2.drop train_df ["is_canceled"] = Ok X_train ->
  Pandas2.column train_df "is_canceled" = Ok y_train ->
  (forall e scoring folds,
     cv e X_train y_train scoring folds
     = cross_validate w e X_train y_train scoring folds) ->
  main (with_cross_validate w cv) train_data_file report_file n_cv_folds
       chosen_seed verbose
  = main w train_data_file report_file n_cv_folds chosen_seed verbose /\
  (forall c, In c X_train <-> In c train_df /\ fst c <> "is_canceled") /\
  (forall x cells,
     In x declared_drop_features -> In (x, cells) train_df ->
     In (x, cells) X_train /\ ~ In x routed_features) /\
  (forall x, In x (concat (groups get_feature_lists)) ->
     In x routed_features \/ In x declared_drop_features) /\
  NoDup routed_features /\
  ~ In "is_canceled" routed_features.
Proof.
  intros Hread Hdrop Hcol Hcv.
  assert (HX : forall c, In c X_train <->
                         In c train_df /\ fst c <> "is_canceled").
  { intros c. unfold Pandas2.drop in Hdrop.
    destruct (forallb _ _); [|discriminate]. injection Hdrop as <-.
    rewrite filter_In. cbn [mem_string existsb]. rewrite orb_false_r.
    rewrite negb_true_iff, String.eqb_neq. reflexivity. }
  split; [|split; [exact HX|split; [|split; [|split]]]].
  - unfold main.
    apply bind_same. intros seed. apply bind_same. intros folds.
    apply bind_same. intros _.
    change (read_csv (with_cross_validate w cv)) with (read_csv w).
    rewrite Hread. cbn [IO.lift]. rewrite !bind_ret.
    apply bind_same. intros _.
    rewrite Hdrop. cbn [IO.lift]. rewrite !bind_ret.
    rewrite Hcol. cbn [IO.lift]. rewrite !bind_ret.
    apply bind_same. intros _.
    unfold run_cross_validate.
    change (cross_validate (with_cross_validate w cv)) with cv.
    rewrite Hcv.
    apply bind_same. intros scores. apply bind_same. intros row.
    rewrite (for_each_same _
               (main_loop_body (with_cross_validate w cv)
                  (verbose_flag verbose) (models seed) preprocessor
                  X_train y_train folds)
               (main_loop_body w (verbose_flag verbose) (models seed)
                  preprocessor X_train y_train folds)).
    + reflexivity.
    + intros m f. unfold main_loop_body, run_cross_validate.
      apply bind_same. intros _. apply bind_same. intros c.
      change (cross_validate (with_cross_validate w cv)) with cv.
      now rewrite Hcv.
  - intros x cells Hx Hin. split.
    + apply HX. split; [exact Hin|]. cbn [fst]. intros ->.
      apply mem_string_In in Hx. discriminate Hx.
    + clear Hin. revert x Hx. apply disjointb_disjoint. reflexivity.
  - intros x Hx.
    assert (H : forallb (fun x => mem_string x routed_features
                                  || mem_string x declared_drop_features)
                        (concat (groups get_feature_lists)) = true)
      by reflexivity.
    rewrite forallb_forall in H. specialize (H x Hx).
    apply orb_true_iff in H as [H|H]; apply mem_string_In in H; auto.
  - apply nodupb_NoDup. reflexivity.
  - intros H. apply mem_string_In in H. discriminate H.
Qed.

Lemma main_keeps_dropped_features_witness :
  main (with_cross_validate
          (world_reading
             (Ok [ ("is_canceled", [Num 0; Num 1]);
                   ("lead_time", [Num 3; Num 4]);
                   ("company", [Str "x"; Str "y"]) ]))
          (fun _ X _ scoring _ =>
             if Pandas.has_label "is_canceled" X then Raise ValueError
             else Ok (sample_scores scoring)))
       "train.csv" "report.csv" PNone PNone PNone
  = main (world_reading
            (Ok [ ("is_canceled", [Num 0; Num 1]);
                  ("lead_time", [Num 3; Num 4]);
                  ("company", [Str "x"; Str "y"]) ]))
         "train.csv" "report.csv" PNone PNone PNone /\
  (forall c,
     In c [("lead_time", [Num 3; Num 4]); ("company", [Str "x"; Str "y"])]
     <-> In c [ ("is_canceled", [Num 0; Num 1]);
                ("lead_time", [Num 3; Num 4]);
                ("company", [Str "x"; Str "y"]) ] /\
         fst c <> "is_canceled") /\
  (forall x cells,
     In x declared_drop_features ->
     In (x, cells) [ ("is_canceled", [Num 0; Num 1]);
                     ("lead_time", [Num 3; Num 4]);
                     ("company", [Str "x"; Str "y"]) ] ->
     In (x, cells)
        [("lead_time", [Num 3; Num 4]); ("company", [Str "x"; Str "y"])] /\
     ~ In x routed_features) /\
  (forall x, In x (concat (groups get_feature_lists)) ->
     In x routed_features \/ In x declared_drop_features) /\
  NoDup routed_features /\
  ~ In "is_canceled" routed_features.
Proof.
  apply (main_keeps_dropped_features
           (world_reading
              (Ok [ ("is_canceled", [Num 0; Num 1]);
                    ("lead_time", [Num 3; Num 4]);
                    ("company", [Str "x"; Str "y"]) ]))
           (fun _ X _ scoring _ =>
             if Pandas.has_label "is_canceled" X then Raise ValueError
             else Ok (sample_scores scoring))
           "train.csv" "report.csv" PNone PNone PNone
           [ ("is_canceled", [Num 0; Num 1]);
             ("lead_time", [Num 3; Num 4]);
             ("company", [Str "x"; Str "y"]) ]
           [("lead_time", [Num 3; Num 4]); ("company", [Str "x"; Str "y"])]
           [("is_canceled", [Num 0; Num 1])]);
    reflexivity.
Defined.

End Runs.

(** ** The float64 columns *)

Section FloatSummary.

Variable mean_of : list float -> float.

Implicit Types (X : Float64.cv_dict) (f : Float64.frame) (k name : string).




Lemma n_rows_mean_row_f64 X :
  X <> [] -> Float64.n_rows (Float64.mean_row mean_of X) = 1.
Proof. destruct X as [|[k v] X]; [congruence|reflexivity]. Qed.







End FloatSummary.



(** The self test's dict over float64: the thirteen cells the test compares
    are 0.5 and 0 exactly, as in the exact model; the two timing cells are
    the float64 means. *)
Lemma summarize_cv_scores_toy_float64 :
  Float64.summarize_cv_scores Float64.nanmean toy_score_float64 "toy_test"
  = Ok [ ("classifier_name", [Float64.Str "toy_test"]);
         ("fit_time", [Float64.Num 0.025315332000000003]);
         ("score_time", [Float64.Num 0.022874975999999998]);
         ("validation_accuracy", [Float64.Num 0.5]);
         ("train_accuracy", [Float64.Num 0.5]);
         ("validation_f1", [Float64.Num 0]);
         ("train_f1", [Float64.Num 0]);
         ("validation_recall", [Float64.Num 0]);
         ("train_recall", [Float64.Num 0]);
         ("validation_precision", [Float64.Num 0]);
         ("train_precision", [Float64.Num 0]);
         ("validation_average_precision", [Float64.Num 0.5]);
         ("train_average_precision", [Float64.Num 0.5]);
         ("validation_roc_auc", [Float64.Num 0.5]);
         ("train_roc_auc", [Float64.Num 0.5]) ].
Proof. vm_compute. reflexivity. Qed.

(** NaN folds are left out of a column's mean, and a column with no fold
    left, or no fold at all, has mean NaN. *)
Lemma nanmean_skips_nan :
  Float64.nanmean [0.5; PrimFloat.nan; 1]%float = 0.75%float /\
  PrimFloat.is_nan (Float64.nanmean [PrimFloat.nan]) = true /\
  PrimFloat.is_nan (Float64.nanmean []) = true.
Proof. repeat split; vm_compute; reflexivity. Qed.

